(** * mhealthx.io_data: reading and writing Synapse tables

    A shallow embedding of [mhealthx/io_data.py].  The five functions of
    the module are sequences of calls into two libraries: [pandas] (the
    in-memory table) and [synapseclient] (the remote table service).  The
    part of [pandas] the module touches is modelled on concrete data; the
    remote service is an arbitrary, history-dependent collaborator whose
    calls are logged. *)

From Stdlib Require Import ZArith Lia.
From stdpp Require Import base tactics option list strings gmap.

Local Open Scope string_scope.
Local Open Scope list_scope.
Local Open Scope Z_scope.

(** ** Python values and exceptions *)

(** The values [download_limit] may hold.  A float is kept as a fraction:
    no arithmetic is done on it. *)
Inductive pyval :=
| PyNone
| PyBool (b : bool)
| PyInt (n : Z)
| PyFloat (num : Z) (den : positive)
| PyStr (s : string).

Inductive pytype := NoneType | bool_t | int_t | float_t | str_t.

#[global] Instance pytype_eq_dec : EqDecision pytype.
Proof. solve_decision. Defined.

#[global] Instance pyval_eq_dec : EqDecision pyval.
Proof. solve_decision. Defined.

(** [type(v)]: the exact class of [v]; [type(True)] is [bool], not [int]. *)
Definition type (v : pyval) : pytype :=
  match v with
  | PyNone => NoneType
  | PyBool _ => bool_t
  | PyInt _ => int_t
  | PyFloat _ _ => float_t
  | PyStr _ => str_t
  end.

(** Exceptions.  [ClientError] stands for any exception raised inside a
    [synapseclient] call; the others are raised by Python and [pandas]. *)
Inductive exn :=
| KeyError (key : pyval)
| IndexError
| TypeError
| ValueError
| ClientError (msg : string).

Inductive outcome (A : Type) :=
| Ok (a : A)
| Raise (e : exn).
Arguments Ok {A} a.
Arguments Raise {A} e.

(** [range(n)] *)
Definition range (n : Z) : list Z := Z.of_nat <$> seq 0 (Z.to_nat n).

(** [range(v)] on a Python value: integers (and booleans, which are
    integers) are accepted, anything else is a [TypeError]. *)
Definition py_range (v : pyval) : outcome (list Z) :=
  match v with
  | PyInt n => Ok (range n)
  | PyBool b => Ok (range (if b then 1 else 0))
  | _ => Raise TypeError
  end.

(** Truth value of a string: [if username and password]. *)
Definition str_truthy (s : string) : bool :=
  match s with EmptyString => false | _ => true end.

(** A dictionary with string keys and string values ([fileinfo],
    [file_handle]). *)
Abbreviation dict := (gmap string string).

Definition dict_getitem (d : dict) (k : string) : outcome string :=
  match d !! k with
  | Some v => Ok v
  | None => Raise (KeyError (PyStr k))
  end.

(** Truth value of what [downloadTableFile] returns: [None] and the empty
    dictionary are false. *)
Definition dict_truthy (d : option dict) : bool :=
  match d with
  | None => false
  | Some m => negb (bool_decide (m = ∅))
  end.

(** [l[i]] by position, negative positions counting from the end. *)
Definition py_nth {A} (l : list A) (i : Z) : option A :=
  if bool_decide (0 ≤ i) then l !! Z.to_nat i
  else if bool_decide (0 ≤ Z.of_nat (length l) + i)
       then l !! Z.to_nat (Z.of_nat (length l) + i)
       else None.

(** ** The part of pandas the module uses

    The behaviour is that of the pandas the module was written for
    (2015): an integer key on a Series is a label first and, on an index
    that is not integer-typed, a position otherwise. *)

(** Row labels: integers (a default or renumbered index) or strings (the
    ["rowId_version"] labels of a query result). *)
Inductive label := LInt (z : Z) | LStr (s : string).

#[global] Instance label_eq_dec : EqDecision label.
Proof. solve_decision. Defined.

(** A cell: the missing marker, a number (a file handle identifier), or a
    string. *)
Inductive cell := NaN | Num (x : Z) | Str (s : string).

#[global] Instance cell_eq_dec : EqDecision cell.
Proof. solve_decision. Defined.

Record DataFrame := {
  df_index : list label;
  df_columns : list (string * list cell)
}.

Record Series := {
  s_index : list label;
  s_values : list cell
}.

(** [df.shape[0]] and [df.shape[1]] *)
Definition shape0 (df : DataFrame) : Z := Z.of_nat (length (df_index df)).
Definition shape1 (df : DataFrame) : Z := Z.of_nat (length (df_columns df)).

(** Column headers, in order. *)
Definition headers (df : DataFrame) : list string := (df_columns df).*1.

(** What [df[name]] gives: a Series when one column has that name, a
    DataFrame of the matching columns when several do. *)
Inductive selection :=
| ASeries (s : Series)
| AFrame (d : DataFrame).

(** [df[name]] *)
Definition df_getitem (df : DataFrame) (name : string) : outcome selection :=
  match filter (λ col, col.1 = name) (df_columns df) with
  | [] => Raise (KeyError (PyStr name))
  | [col] => Ok (ASeries {| s_index := df_index df; s_values := col.2 |})
  | cols => Ok (AFrame {| df_index := df_index df; df_columns := cols |})
  end.

(** [del df[name]]: every column of that name goes; [KeyError] if none. *)
Definition df_delitem (df : DataFrame) (name : string) : outcome DataFrame :=
  if bool_decide (name ∈ headers df)
  then Ok {| df_index := df_index df;
             df_columns := filter (λ col, col.1 ≠ name) (df_columns df) |}
  else Raise (KeyError (PyStr name)).

(** [df.index = labels]: the new index must have one label per row. *)
Definition df_set_index (df : DataFrame) (labels : list label) : outcome DataFrame :=
  if bool_decide (length labels = length (df_index df))
  then Ok {| df_index := labels; df_columns := df_columns df |}
  else Raise ValueError.

Definition is_LInt (l : label) : bool :=
  match l with LInt _ => true | LStr _ => false end.

(** An index pandas treats as integer-typed: non-empty, integers only. *)
Definition integer_index (idx : list label) : bool :=
  match idx with
  | [] => false
  | _ => forallb is_LInt idx
  end.

(** Positions of the index that carry label [l], counted from [p]. *)
Fixpoint positions_from (p : nat) (l : label) (idx : list label) : list nat :=
  match idx with
  | [] => []
  | l' :: idx' =>
      if bool_decide (l' = l) then p :: positions_from (S p) l idx'
      else positions_from (S p) l idx'
  end.

Definition positions (l : label) (idx : list label) : list nat :=
  positions_from 0 l idx.

(** What [series[i]] gives for an integer [i]: one cell, or the rows that
    share the label [i] (those rows of the parent Series). *)
Inductive picked :=
| Scalar (c : cell)
| Rows (parent : Series) (ps : list nat).

(** [series[i]] for an integer key.  The key is first looked up as a
    label.  When it is not a label: an integer-typed index raises
    [KeyError], any other index falls back to the position [i]. *)
Definition series_getitem (s : Series) (i : Z) : outcome picked :=
  match positions (LInt i) (s_index s) with
  | [] =>
      if integer_index (s_index s) then Raise (KeyError (PyInt i))
      else match py_nth (s_values s) i with
           | Some c => Ok (Scalar c)
           | None => Raise IndexError
           end
  | [p] =>
      match s_values s !! p with
      | Some c => Ok (Scalar c)
      | None => Raise IndexError
      end
  | ps => Ok (Rows s ps)
  end.

(** [column_data[irow]], where [column_data] is what [df[name]] gave.  On
    a DataFrame an integer key is looked up among the column names, which
    are strings. *)
Definition selection_getitem (sel : selection) (i : Z) : outcome picked :=
  match sel with
  | ASeries s => series_getitem s i
  | AFrame _ => Raise (KeyError (PyInt i))
  end.

Definition is_Str (c : cell) : bool :=
  match c with Str _ => true | _ => false end.

(** A column holding a string has dtype [object]. *)
Definition object_dtype (s : Series) : bool := existsb is_Str (s_values s).

(** [if np.isnan(x)]: the test of the missing marker.  A string is a
    [TypeError]; several rows give an array, whose truth value is a
    [ValueError] (a [TypeError] already when the dtype is [object]). *)
Definition np_isnan (x : picked) : outcome bool :=
  match x with
  | Scalar NaN => Ok true
  | Scalar (Num _) => Ok false
  | Scalar (Str _) => Raise TypeError
  | Rows parent _ => if object_dtype parent then Raise TypeError else Raise ValueError
  end.

(** [pd.concat(frames, axis=1)]: the columns of the frames side by side.
    Frames that all carry the index of the first one keep it as it is.
    Otherwise the rows are aligned by label on the union of the indexes
    (which needs every index free of duplicates) and the cells a frame
    has no row for are missing.  How pandas orders that union is left
    open: [union_indexes] is whatever it computes. *)
Section Concat.
Variable union_indexes : list (list label) → list label.

Definition reindex (idx : list label) (df : DataFrame) : list (string * list cell) :=
  (λ col : string * list cell,
     (col.1,
      (λ l, match positions l (df_index df) with
            | p :: _ => default NaN (col.2 !! p)
            | [] => NaN
            end) <$> idx)) <$> df_columns df.

Definition pd_concat_axis1 (frames : list DataFrame) : outcome DataFrame :=
  match frames with
  | [] => Raise ValueError
  | first :: rest =>
      if forallb (λ df, bool_decide (df_index df = df_index first)) rest
      then Ok {| df_index := df_index first;
                 df_columns := mjoin (df_columns <$> frames) |}
      else if forallb (λ df, bool_decide (NoDup (df_index df))) frames
      then let idx := union_indexes (df_index <$> frames) in
           Ok {| df_index := idx;
                 df_columns := mjoin (reindex idx <$> frames) |}
      else Raise ValueError
  end.
End Concat.

(** ** The Synapse client *)

(** [Column(name=..., columnType=...)] *)
Record Column := {
  col_name : string;
  col_columnType : string
}.

(** [Schema(name=..., columns=..., parent=...)], with the optional
    [includeRowIdAndRowVersion] argument when the caller passes it, and
    the identifier Synapse gives a stored schema. *)
Record Schema := {
  sch_name : string;
  sch_columns : list Column;
  sch_parent : string;
  sch_includeRowIdAndRowVersion : option bool;
  sch_id : option string
}.

(** What is passed to and returned by [syn.get] and [syn.store]. *)
Inductive entity :=
| ESchema (s : Schema)
| ETable (schema : entity) (values : DataFrame)
| ERowSet (columns : list Column) (schema : entity) (rows : list (list string)).

(** [Schema(name=..., columns=..., parent=...)] as the module builds it:
    not stored yet, [includeRowIdAndRowVersion] as the caller passes it. *)
Definition new_Schema (name : string) (columns : list Column) (parent : string)
    (includeRowIdAndRowVersion : option bool) : Schema :=
  {| sch_name := name; sch_columns := columns; sch_parent := parent;
     sch_includeRowIdAndRowVersion := includeRowIdAndRowVersion;
     sch_id := None |}.

(** [Row(r)] keeps the list of values [r]. *)
Definition Row (r : list string) : list string := r.

(** The calls the module makes on a [Synapse] object. *)
Inductive call :=
| Login (credentials : option (string * string))
| Get (id : string)
| TableQuery (query : string)
| DownloadTableFile (schema : entity) (rowId versionNumber : Z)
                    (column downloadLocation : string)
| ChunkedUploadFile (path : string)
| Store (obj : entity).

(** The calls made so far, oldest first. *)
Abbreviation history := (list call).

(** A call into the client returns a value or raises. *)
Inductive reply (A : Type) :=
| Done (a : A)
| Failed (msg : string).
Arguments Done {A} a.
Arguments Failed {A} msg.

(** The remote service seen through the client: what each call answers,
    given the calls made before it.  Nothing is assumed about the
    answers.  [tableQuery_reply] is the result set as
    [results.asDataFrame()] materialises it. *)
Record Synapse := {
  login_reply : history → option (string * string) → reply ();
  get_reply : history → string → reply entity;
  tableQuery_reply : history → string → reply DataFrame;
  downloadTableFile_reply :
    history → entity → Z → Z → string → string → reply (option dict);
  chunkedUploadFile_reply : history → string → reply dict;
  store_reply : history → entity → reply entity
}.

(** ** Computations: calls are logged, exceptions abort *)

Definition M (A : Type) : Type := history → outcome A * history.

#[global] Instance M_ret : MRet M := λ A a h, (Ok a, h).

#[global] Instance M_bind : MBind M := λ A B f m h,
  match m h with
  | (Ok a, h') => f a h'
  | (Raise e, h') => (Raise e, h')
  end.

(** A Python or pandas operation inside a computation. *)
Definition lift {A} (o : outcome A) : M A := λ h, (o, h).

(** A client call: it is logged, then answers. *)
Definition invoke {A} (c : call) (r : history → reply A) : M A := λ h,
  match r h with
  | Done a => (Ok a, h ++ [c])
  | Failed msg => (Raise (ClientError msg), h ++ [c])
  end.

(** [for x in xs: body], the loop carrying the state [s] it updates. *)
Fixpoint for_in {A S} (xs : list A) (body : A → S → M S) (s : S) : M S :=
  match xs with
  | [] => mret s
  | x :: xs' => s' ← body x s; for_in xs' body s'
  end.

(** ** mhealthx/io_data.py *)

Section IoData.
(** The remote service, and the two library functions left open:
    [as_table_columns] of synapseclient, which derives the columns of a
    schema from a DataFrame or raises, and the index union of pandas. *)
Variable syn : Synapse.
Variable as_table_columns : DataFrame → reply (list Column).
Variable union_indexes : list (list label) → list label.

Definition syn_login (credentials : option (string * string)) : M () :=
  invoke (Login credentials) (λ h, login_reply syn h credentials).

Definition syn_get (id : string) : M entity :=
  invoke (Get id) (λ h, get_reply syn h id).

(** [syn.tableQuery(query).asDataFrame()] *)
Definition syn_tableQuery (query : string) : M DataFrame :=
  invoke (TableQuery query) (λ h, tableQuery_reply syn h query).

Definition syn_downloadTableFile (schema : entity) (rowId versionNumber : Z)
    (column downloadLocation : string) : M (option dict) :=
  invoke (DownloadTableFile schema rowId versionNumber column downloadLocation)
         (λ h, downloadTableFile_reply syn h schema rowId versionNumber
                                       column downloadLocation).

Definition syn_chunkedUploadFile (path : string) : M dict :=
  invoke (ChunkedUploadFile path) (λ h, chunkedUploadFile_reply syn h path).

Definition syn_store (obj : entity) : M entity :=
  invoke (Store obj) (λ h, store_reply syn h obj).

(** A library function that raises or returns, without a remote call. *)
Definition lift_reply {A} (r : reply A) : M A :=
  lift (match r with Done a => Ok a | Failed msg => Raise (ClientError msg) end).

(** Log in to Synapse:
    [if username and password: syn.login(username, password)
     else: syn.login()] *)
Definition log_in (username password : string) : M () :=
  if str_truthy username && str_truthy password
  then syn_login (Some (username, password))
  else syn_login None.

(** [fileinfo['path']] on what [downloadTableFile] returned. *)
Definition fileinfo_getitem (fileinfo : option dict) (k : string) : outcome string :=
  match fileinfo with
  | Some d => dict_getitem d k
  | None => Raise TypeError
  end.

(** The body of [for irow in range(download_limit)]. *)
Definition download_row (schema : entity) (column_name out_path : string)
    (column_data : selection) (irow : Z)
    (files_per_column : list (option string)) : M (list (option string)) :=
  x ← lift (selection_getitem column_data irow);
  missing ← lift (np_isnan x);
  (* If there is no file in that row, save None: *)
  if missing : bool then mret (files_per_column ++ [None])
  (* Download the file: *)
  else
    fileinfo ← syn_downloadTableFile schema irow 0 column_name out_path;
    if dict_truthy fileinfo
    then path ← lift (fileinfo_getitem fileinfo "path");
         mret (files_per_column ++ [Some path])
    else mret (files_per_column ++ [Some ""]).

(** The body of [for column_name in column_names]. *)
Definition download_column (schema : entity) (table_data : DataFrame)
    (download_limit : pyval) (out_path : string) (column_name : string)
    (downloaded_files : list (list (option string)))
  : M (list (list (option string))) :=
  column_data ← lift (df_getitem table_data column_name);
  (* Loop through specified number of rows: *)
  let files_per_column := [] in
  irows ← lift (py_range download_limit);
  files_per_column ←
    for_in irows (download_row schema column_name out_path column_data)
           files_per_column;
  mret (downloaded_files ++ [files_per_column]).

Definition read_synapse_table_files (synapse_table_id : string)
    (column_names : list string) (download_limit : pyval)
    (out_path username password : string)
  : M (DataFrame * list (list (option string))) :=
  _ ← log_in username password;
  (* Download Synapse table schema and table_data: *)
  schema ← syn_get synapse_table_id;
  let query := "select * from " +:+ synapse_table_id in
  table_data ← syn_tableQuery query;
  let downloaded_files := [] in
  (* Download Synapse files for fileIDs in specified table columns: *)
  match column_names with
  | [] => mret (table_data, downloaded_files)
  | _ =>
      (* Set the number of rows to loop through: *)
      let download_limit :=
        if bool_decide (type download_limit ≠ int_t)
        then PyInt (shape0 table_data)
        else download_limit in
      (* Loop through specified columns: *)
      downloaded_files ←
        for_in column_names
               (download_column schema table_data download_limit out_path)
               downloaded_files;
      mret (table_data, downloaded_files)
  end.

(** [table_data.index = range(table_data.shape[0])] *)
Definition reset_index (table_data : DataFrame) : outcome DataFrame :=
  df_set_index table_data (LInt <$> range (shape0 table_data)).

Definition copy_synapse_table (synapse_table_id synapse_project_id table_name : string)
    (remove_columns : list string) (username password : string)
  : M (DataFrame * string * string) :=
  _ ← log_in username password;
  (* Download Synapse table as a dataframe: *)
  table_data ← syn_tableQuery ("select * from " +:+ synapse_table_id);
  (* Remove specified columns: *)
  table_data ←
    match remove_columns with
    | [] => mret table_data
    | _ => for_in remove_columns
                  (λ remove_column table_data,
                     lift (df_delitem table_data remove_column))
                  table_data
    end;
  (* Upload to Synapse table: *)
  table_data ← lift (reset_index table_data);
  columns ← lift_reply (as_table_columns table_data);
  let schema :=
    new_Schema table_name columns synapse_project_id (Some false) in
  table ← syn_store (ETable (ESchema schema) table_data);
  mret (table_data, table_name, synapse_project_id).

Definition write_synapse_table (table_data : DataFrame)
    (synapse_project_id table_name username password : string) : M () :=
  _ ← log_in username password;
  table_data ← lift (reset_index table_data);
  columns ← lift_reply (as_table_columns table_data);
  let schema :=
    new_Schema table_name columns synapse_project_id (Some false) in
  _ ← syn_store (ETable (ESchema schema) table_data);
  mret ().

(** The body of [for in_file in in_files]. *)
Definition upload_file (in_file : string) (files_handles : list (list string))
  : M (list (list string)) :=
  file_handle ← syn_chunkedUploadFile in_file;
  id ← lift (dict_getitem file_handle "id");
  mret (files_handles ++ [[id]]).

Definition files_to_synapse_table (in_files : list string)
    (synapse_project_id table_name column_name username password : string) : M () :=
  _ ← log_in username password;
  (* Store file handle IDs: *)
  files_handles ← for_in in_files upload_file [];
  (* New column headers: *)
  let new_column_header :=
    {| col_name := column_name; col_columnType := "FILEHANDLEID" |} in
  (* Create table schema: *)
  schema ← syn_store (ESchema (new_Schema table_name [new_column_header]
                                        synapse_project_id None));
  (* Upload files and file handle IDs with new schema: *)
  _ ← syn_store (ERowSet [new_column_header] schema (Row <$> files_handles));
  mret ().

Definition concatenate_tables_to_synapse_table (frames : list DataFrame)
    (synapse_project_id table_name username password : string)
  : M (DataFrame * string) :=
  _ ← log_in username password;
  (* Concatenate dataframes: reuse the indices from the original DataFrame,
     increasing number of columns: *)
  table_data ← lift (pd_concat_axis1 union_indexes frames);
  (* Create table schema: *)
  columns ← lift_reply (as_table_columns table_data);
  let schema := new_Schema table_name columns synapse_project_id None in
  (* Store as Synapse table: *)
  table ← syn_store (ETable (ESchema schema) table_data);
  mret (table_data, synapse_project_id).

End IoData.

(** ** A small service and tables to run the functions on *)

Module Demo.
(** Three rows as a query returns them, labelled ["rowId_version"]; the
    second row has no audio file. *)
Definition table : DataFrame :=
  {| df_index := [LStr "1_0"; LStr "2_0"; LStr "3_0"];
     df_columns := [("recordId", [Str "r1"; Str "r2"; Str "r3"]);
                    ("audio_audio.m4a", [Num 5001; NaN; Num 5003]);
                    ("audio_countdown.m4a", [Num 6001; Num 6002; NaN])] |}.

Definition schema (id : string) : entity :=
  ESchema {| sch_name := "voice"; sch_columns := [];
             sch_parent := "syn1"; sch_includeRowIdAndRowVersion := None;
             sch_id := Some id |}.

(** Every call succeeds; the download of row 2 reports no file info. *)
Definition syn : Synapse :=
  {| login_reply := λ _ _, Done ();
     get_reply := λ _ id, Done (schema id);
     tableQuery_reply := λ _ _, Done table;
     downloadTableFile_reply := λ _ _ rowId _ column downloadLocation,
       Done (if bool_decide (rowId = 2) then None
             else Some {["path" := downloadLocation +:+ "/" +:+ column]});
     chunkedUploadFile_reply := λ _ path, Done {["id" := "fh:" +:+ path]};
     store_reply := λ _ obj,
       Done (match obj with
             | ESchema s =>
                 ESchema {| sch_name := sch_name s; sch_columns := sch_columns s;
                            sch_parent := sch_parent s;
                            sch_includeRowIdAndRowVersion :=
                              sch_includeRowIdAndRowVersion s;
                            sch_id := Some "syn2" |}
             | _ => obj
             end) |}.

(** One STRING column per header. *)
Definition as_table_columns (df : DataFrame) : reply (list Column) :=
  Done ((λ name, {| col_name := name; col_columnType := "STRING" |}) <$> headers df).

(** Labels in order of first occurrence. *)
Definition union_indexes (indexes : list (list label)) : list label :=
  remove_dups (mjoin indexes).

Definition df1 : DataFrame :=
  {| df_index := [LInt 5; LInt 7];
     df_columns := [("A", [Str "A0"; Str "A1"]); ("B", [Str "B0"; Str "B1"])] |}.

Definition df2 : DataFrame :=
  {| df_index := [LInt 5; LInt 7];
     df_columns := [("E", [Str "A4"; Str "A5"])] |}.
End Demo.

(** ** Notions used in the statements *)

(** The credentials [log_in] passes on. *)
Definition credentials (username password : string) : option (string * string) :=
  if str_truthy username && str_truthy password
  then Some (username, password) else None.

(** The fixed query of the module. *)
Definition select_all (synapse_table_id : string) : string :=
  "select * from " +:+ synapse_table_id.

Definition is_download (c : call) : bool :=
  match c with DownloadTableFile _ _ _ _ _ => true | _ => false end.

(** Every column has one cell per row. *)
Definition well_formed (df : DataFrame) : Prop :=
  Forall (λ col : string * list cell, length col.2 = length (df_index df))
         (df_columns df).

(** The index is the contiguous sequence 0, 1, ..., N-1. *)
Definition clean_index (df : DataFrame) : Prop :=
  df_index df = LInt <$> range (shape0 df).

(** Rows addressable by position: an integer label, where there is one,
    is the position of its row.  The string labels of a query result and
    the default index both are. *)
Fixpoint positional_from (p : nat) (idx : list label) : bool :=
  match idx with
  | [] => true
  | LInt z :: idx' => bool_decide (z = Z.of_nat p) && positional_from (S p) idx'
  | LStr _ :: idx' => positional_from (S p) idx'
  end.

Definition positional (idx : list label) : bool := positional_from 0 idx.

(** The number of rows the file columns are resolved for: [download_limit]
    when it is an integer, every row of the table otherwise. *)
Definition rows_to_resolve (download_limit : pyval) (table_data : DataFrame) : Z :=
  match download_limit with
  | PyInt n => n
  | _ => shape0 table_data
  end.

(** [table_data[column_name][irow]], as the download loop reads it. *)
Definition cell_at (table_data : DataFrame) (column_name : string) (irow : Z)
  : outcome picked :=
  match df_getitem table_data column_name with
  | Ok column_data => selection_getitem column_data irow
  | Raise e => Raise e
  end.

(** The entry recorded for row [irow] of column [column_name], in a run
    whose calls are [h]: [None] for the missing marker; otherwise the
    file was requested with [downloadTableFile] into [out_path], and the
    entry is the path of the answer, or the empty string if the answer
    holds no file info. *)
Definition resolved (syn : Synapse) (schema : entity) (table_data : DataFrame)
    (out_path : string) (h : history) (column_name : string) (irow : Z)
    (entry : option string) : Prop :=
  ∃ c, cell_at table_data column_name irow = Ok (Scalar c) ∧
    match c with
    | NaN => entry = None
    | Num _ =>
        ∃ before fileinfo,
          (before ++ [DownloadTableFile schema irow 0 column_name out_path])
            `prefix_of` h ∧
          downloadTableFile_reply syn before schema irow 0 column_name out_path
            = Done fileinfo ∧
          if dict_truthy fileinfo
          then ∃ d path, fileinfo = Some d ∧ d !! "path" = Some path ∧
                         entry = Some path
          else entry = Some ""
    | Str _ => False
    end.

(** The login, the schema lookup and the query of a read, made after the
    calls [h], all answer: the schema is [schema], the table
    [table_data]. *)
Definition query_answers (syn : Synapse) (h : history)
    (username password synapse_table_id : string)
    (schema : entity) (table_data : DataFrame) : Prop :=
  let cred := credentials username password in
  login_reply syn h cred = Done () ∧
  get_reply syn (h ++ [Login cred]) synapse_table_id = Done schema ∧
  tableQuery_reply syn (h ++ [Login cred; Get synapse_table_id])
                   (select_all synapse_table_id) = Done table_data.

(** Every download answers, and an answer that holds file info holds a
    path. *)
Definition downloads_answer (syn : Synapse) (schema : entity) (out_path : string)
  : Prop :=
  ∀ before irow column_name, ∃ fileinfo,
    downloadTableFile_reply syn before schema irow 0 column_name out_path
      = Done fileinfo ∧
    (dict_truthy fileinfo = true →
     ∃ d path, fileinfo = Some d ∧ d !! "path" = Some path).

(** A column of file references: one column of that name, one cell per
    row, each a file identifier or the missing marker. *)
Definition file_column (df : DataFrame) (name : string) : Prop :=
  ∃ vals,
    df_getitem df name
      = Ok (ASeries {| s_index := df_index df; s_values := vals |}) ∧
    length vals = length (df_index df) ∧
    forallb (λ c, negb (is_Str c)) vals = true.

(** A column with one cell per row, found under one name. *)
Definition table_column (df : DataFrame) (name : string) : Prop :=
  ∃ vals,
    df_getitem df name
      = Ok (ASeries {| s_index := df_index df; s_values := vals |}) ∧
    length vals = length (df_index df).

(** The errors of an access past the rows: [IndexError] by position,
    [KeyError] on an integer label. *)
Definition out_of_bounds (e : exn) : bool :=
  match e with
  | IndexError | KeyError (PyInt _) => true
  | _ => false
  end.

(** [for remove_column in remove_columns: del table_data[remove_column]]
    as a function of the table. *)
Fixpoint del_columns (remove_columns : list string) (table_data : DataFrame)
  : outcome DataFrame :=
  match remove_columns with
  | [] => Ok table_data
  | remove_column :: rest =>
      match df_delitem table_data remove_column with
      | Ok table_data' => del_columns rest table_data'
      | Raise e => Raise e
      end
  end.

(** The table with its rows renumbered 0, 1, ..., N-1. *)
Definition renumbered (df : DataFrame) : DataFrame :=
  {| df_index := LInt <$> range (shape0 df); df_columns := df_columns df |}.

(** A call that, if it is a store, stores a table for which [P] holds. *)
Definition stores (P : DataFrame → Prop) (c : call) : Prop :=
  match c with
  | Store (ETable _ table_data) => P table_data
  | Store _ => False
  | _ => True
  end.

(** The last steps of the three writing functions, run on [table_data]
    after the calls [h]: derive the columns, build the schema, store the
    table. *)
Definition store_run (syn : Synapse)
    (as_table_columns : DataFrame → reply (list Column))
    (table_name synapse_project_id : string)
    (includeRowIdAndRowVersion : option bool)
    (table_data : DataFrame) (h : history) : outcome DataFrame * history :=
  match as_table_columns table_data with
  | Failed msg => (Raise (ClientError msg), h)
  | Done columns =>
      let table :=
        ETable (ESchema (new_Schema table_name columns synapse_project_id
                                    includeRowIdAndRowVersion))
               table_data in
      match store_reply syn h table with
      | Done _ => (Ok table_data, h ++ [Store table])
      | Failed msg => (Raise (ClientError msg), h ++ [Store table])
      end
  end.

(** Every upload answers with a file handle that has an identifier. *)
Definition uploads_answer (syn : Synapse) : Prop :=
  ∀ before path, ∃ file_handle id,
    chunkedUploadFile_reply syn before path = Done file_handle ∧
    file_handle !! "id" = Some id.

(** Every store answers. *)
Definition stores_answer (syn : Synapse) : Prop :=
  ∀ before obj, ∃ stored, store_reply syn before obj = Done stored.

(** The download the loop makes for row [irow] of column [column_name]:
    one call when the cell is a file identifier, none otherwise. *)
Definition row_downloads (schema : entity) (out_path : string)
    (table_data : DataFrame) (column_name : string) (irow : Z) : list call :=
  match cell_at table_data column_name irow with
  | Ok (Scalar (Num _)) =>
      [DownloadTableFile schema irow 0 column_name out_path]
  | _ => []
  end.

(** The downloads for rows 0, ..., n-1 of one column, then of each column
    in turn. *)
Definition column_downloads (schema : entity) (out_path : string)
    (table_data : DataFrame) (n : Z) (column_name : string) : list call :=
  mjoin (row_downloads schema out_path table_data column_name <$> range n).

Definition expected_downloads (schema : entity) (out_path : string)
    (table_data : DataFrame) (n : Z) (column_names : list string) : list call :=
  mjoin (column_downloads schema out_path table_data n <$> column_names).

(** Calls that write to the service. *)
Definition is_write (c : call) : bool :=
  match c with
  | Store _ | ChunkedUploadFile _ => true
  | _ => false
  end.

(** ** Services that fail, to run the error paths on *)

Module Faulty.
(** The login is refused. *)
Definition no_login : Synapse :=
  {| login_reply := λ _ _, Failed "401 Unauthorized";
     get_reply := get_reply Demo.syn;
     tableQuery_reply := tableQuery_reply Demo.syn;
     downloadTableFile_reply := downloadTableFile_reply Demo.syn;
     chunkedUploadFile_reply := chunkedUploadFile_reply Demo.syn;
     store_reply := store_reply Demo.syn |}.

(** The download of row 2 fails. *)
Definition no_download : Synapse :=
  {| login_reply := login_reply Demo.syn;
     get_reply := get_reply Demo.syn;
     tableQuery_reply := tableQuery_reply Demo.syn;
     downloadTableFile_reply := λ _ _ rowId _ column downloadLocation,
       if bool_decide (rowId = 2) then Failed "connection reset"
       else Done (Some {["path" := downloadLocation +:+ "/" +:+ column]});
     chunkedUploadFile_reply := chunkedUploadFile_reply Demo.syn;
     store_reply := store_reply Demo.syn |}.

(** The upload of ["test2.wav"] fails; the handle of ["test3.wav"] has no
    identifier. *)
Definition no_upload : Synapse :=
  {| login_reply := login_reply Demo.syn;
     get_reply := get_reply Demo.syn;
     tableQuery_reply := tableQuery_reply Demo.syn;
     downloadTableFile_reply := downloadTableFile_reply Demo.syn;
     chunkedUploadFile_reply := λ _ path,
       if bool_decide (path = "test2.wav") then Failed "file not found"
       else if bool_decide (path = "test3.wav")
            then Done {["concreteType" := "S3FileHandle"]}
            else Done {["id" := "fh:" +:+ path]};
     store_reply := store_reply Demo.syn |}.

(** A schema is stored, a set of rows is refused. *)
Definition no_rows : Synapse :=
  {| login_reply := login_reply Demo.syn;
     get_reply := get_reply Demo.syn;
     tableQuery_reply := tableQuery_reply Demo.syn;
     downloadTableFile_reply := downloadTableFile_reply Demo.syn;
     chunkedUploadFile_reply := chunkedUploadFile_reply Demo.syn;
     store_reply := λ h obj,
       match obj with
       | ERowSet _ _ _ => Failed "400 Bad Request"
       | _ => store_reply Demo.syn h obj
       end |}.

(** The file info of a download holds a name but no path. *)
Definition no_path : Synapse :=
  {| login_reply := login_reply Demo.syn;
     get_reply := get_reply Demo.syn;
     tableQuery_reply := tableQuery_reply Demo.syn;
     downloadTableFile_reply := λ _ _ _ _ column _,
       Done (Some {["name" := column]});
     chunkedUploadFile_reply := chunkedUploadFile_reply Demo.syn;
     store_reply := store_reply Demo.syn |}.

(** No column type can be derived. *)
Definition as_table_columns (df : DataFrame) : reply (list Column) :=
  Failed "unknown dtype".
End Faulty.

(** * Properties *)

(** ** The functions on the demonstration service *)

Example read_demo :
  read_synapse_table_files Demo.syn "syn4590865"
    ["audio_audio.m4a"; "audio_countdown.m4a"] PyNone "out" "" "" []
  = (Ok (Demo.table,
         [[Some "out/audio_audio.m4a"; None; Some ""];
          [Some "out/audio_countdown.m4a"; Some "out/audio_countdown.m4a"; None]]),
     [Login None; Get "syn4590865"; TableQuery "select * from syn4590865";
      DownloadTableFile (Demo.schema "syn4590865") 0 0 "audio_audio.m4a" "out";
      DownloadTableFile (Demo.schema "syn4590865") 2 0 "audio_audio.m4a" "out";
      DownloadTableFile (Demo.schema "syn4590865") 0 0 "audio_countdown.m4a" "out";
      DownloadTableFile (Demo.schema "syn4590865") 1 0 "audio_countdown.m4a" "out"]).
Proof. vm_compute. reflexivity. Qed.

Example read_demo_limit_2 :
  (read_synapse_table_files Demo.syn "syn4590865" ["audio_audio.m4a"]
     (PyInt 2) "out" "user" "secret" []).1
  = Ok (Demo.table, [[Some "out/audio_audio.m4a"; None]]).
Proof. vm_compute. reflexivity. Qed.

Example read_demo_string_column :
  (read_synapse_table_files Demo.syn "syn4590865" ["recordId"]
     PyNone "out" "" "" []).1
  = Raise TypeError.
Proof. vm_compute. reflexivity. Qed.

Example copy_demo :
  (copy_synapse_table Demo.syn Demo.as_table_columns "syn4590865" "syn4899451"
     "Copy" ["audio_audio.m4a"; "audio_countdown.m4a"] "" "" []).1
  = Ok ({| df_index := [LInt 0; LInt 1; LInt 2];
           df_columns := [("recordId", [Str "r1"; Str "r2"; Str "r3"])] |},
        "Copy", "syn4899451").
Proof. vm_compute. reflexivity. Qed.

(** ** Running a computation step by step *)

Lemma bind_run {A B} (m : M A) (f : A → M B) h :
  (m ≫= f) h = match m h with
               | (Ok a, h') => f a h'
               | (Raise e, h') => (Raise e, h')
               end.
Proof. reflexivity. Qed.

Lemma bind_ok {A B} (m : M A) (f : A → M B) h a h1 :
  m h = (Ok a, h1) → (m ≫= f) h = f a h1.
Proof. intros E. rewrite bind_run, E. reflexivity. Qed.

Lemma bind_raise {A B} (m : M A) (f : A → M B) h e h1 :
  m h = (Raise e, h1) → (m ≫= f) h = (Raise e, h1).
Proof. intros E. rewrite bind_run, E. reflexivity. Qed.

Lemma bind_ok_inv {A B} (m : M A) (f : A → M B) h b h' :
  (m ≫= f) h = (Ok b, h') → ∃ a h1, m h = (Ok a, h1) ∧ f a h1 = (Ok b, h').
Proof.
  rewrite bind_run. destruct (m h) as [[a|e] h1]; intros E.
  - eauto.
  - discriminate.
Qed.

Lemma ret_run {A} (a : A) h : mret (M := M) a h = (Ok a, h).
Proof. reflexivity. Qed.

Lemma lift_run {A} (o : outcome A) h : lift o h = (o, h).
Proof. reflexivity. Qed.

Lemma invoke_done {A} c (r : history → reply A) h a :
  r h = Done a → invoke c r h = (Ok a, h ++ [c]).
Proof. intros E. unfold invoke. rewrite E. reflexivity. Qed.

Lemma invoke_ok_inv {A} c (r : history → reply A) h a h' :
  invoke c r h = (Ok a, h') → r h = Done a ∧ h' = h ++ [c].
Proof.
  unfold invoke. destruct (r h); intros E; simplify_eq. done.
Qed.

Lemma invoke_extends {A} c (r : history → reply A) h o h' :
  invoke c r h = (o, h') → h' = h ++ [c].
Proof. unfold invoke. destruct (r h); intros E; by simplify_eq. Qed.

Lemma log_in_run syn username password :
  log_in syn username password = syn_login syn (credentials username password).
Proof.
  unfold log_in, credentials.
  destruct (str_truthy username && str_truthy password); reflexivity.
Qed.

(** Client calls are [invoke] steps. *)
Ltac client_calls :=
  unfold syn_login, syn_get, syn_tableQuery, syn_downloadTableFile,
         syn_chunkedUploadFile, syn_store in *.

(** ** Reading a table without file columns *)

(** With no file column requested, no call is a download, whatever the
    service answers and however the run ends. *)
Lemma no_download_without_columns syn synapse_table_id download_limit
    out_path username password h r h' :
  read_synapse_table_files syn synapse_table_id [] download_limit
                           out_path username password h = (r, h') →
  ∃ calls, h' = h ++ calls ∧ existsb is_download calls = false.
Proof.
  unfold read_synapse_table_files. rewrite log_in_run.
  set (cred := credentials username password).
  unfold syn_login, syn_get, syn_tableQuery.
  rewrite bind_run.
  destruct (invoke (Login cred) _ h) as [[[]|e] h1] eqn:E1;
    apply invoke_extends in E1 as ->.
  2: { intros; simplify_eq. by exists [Login cred]. }
  rewrite bind_run.
  destruct (invoke (Get _) _ _) as [[schema|e] h2] eqn:E2;
    apply invoke_extends in E2 as ->.
  2: { intros; simplify_eq. exists [Login cred; Get synapse_table_id].
       by rewrite <- app_assoc. }
  rewrite bind_run.
  destruct (invoke (TableQuery _) _ _) as [[td|e] h3] eqn:E3;
    apply invoke_extends in E3 as ->; rewrite ?ret_run; intros; simplify_eq;
    exists [Login cred; Get synapse_table_id;
            TableQuery ("select * from " +:+ synapse_table_id)];
    by rewrite <- !app_assoc.
Qed.

(** C9. For every table, reading it with an empty list of file columns
    returns the whole queried dataset and an empty list of downloaded-file
    sequences; the calls made are the login, the schema lookup and the
    query, none of them a file download. *)
Theorem read_without_columns syn synapse_table_id download_limit out_path
    username password h schema table_data :
  let cred := credentials username password in
  login_reply syn h cred = Done () →
  get_reply syn (h ++ [Login cred]) synapse_table_id = Done schema →
  tableQuery_reply syn (h ++ [Login cred; Get synapse_table_id])
                   (select_all synapse_table_id) = Done table_data →
  ∃ calls,
    read_synapse_table_files syn synapse_table_id [] download_limit
                             out_path username password h
    = (Ok (table_data, []), h ++ calls) ∧
    calls = [Login cred; Get synapse_table_id;
             TableQuery (select_all synapse_table_id)] ∧
    existsb is_download calls = false.
Proof.
  intros cred Hlogin Hget Hquery.
  eexists. split; [|split; [reflexivity|reflexivity]].
  unfold read_synapse_table_files. rewrite log_in_run. fold cred.
  erewrite bind_ok by (apply invoke_done, Hlogin).
  erewrite bind_ok by (apply invoke_done, Hget).
  erewrite bind_ok.
  2: { apply invoke_done. rewrite <- app_assoc. exact Hquery. }
  rewrite ret_run. by rewrite <- !app_assoc.
Qed.

Lemma read_without_columns_witness :
  ∃ calls,
    read_synapse_table_files Demo.syn "syn4590865" [] PyNone "/tmp" "" "" []
    = (Ok (Demo.table, []), calls) ∧
    calls = [Login None; Get "syn4590865";
             TableQuery (select_all "syn4590865")] ∧
    existsb is_download calls = false.
Proof.
  exact (read_without_columns Demo.syn "syn4590865" PyNone "/tmp" "" "" []
           (Demo.schema "syn4590865") Demo.table
           eq_refl eq_refl eq_refl).
Defined.

(** ** Facts about the table model *)

Lemma range_length n : length (range n) = Z.to_nat n.
Proof. unfold range. by rewrite length_fmap, length_seq. Qed.

Lemma range_lookup n (i : nat) :
  (i < Z.to_nat n)%nat → range n !! i = Some (Z.of_nat i).
Proof.
  intros Hi. unfold range. rewrite list_lookup_fmap.
  rewrite lookup_seq_lt by done. reflexivity.
Qed.

Lemma elem_of_range n i : i ∈ range n ↔ 0 ≤ i < n.
Proof.
  unfold range. rewrite list_elem_of_fmap. split.
  - intros (k & -> & Hk). apply elem_of_seq in Hk. lia.
  - intros Hi. exists (Z.to_nat i). split; [lia|]. apply elem_of_seq. lia.
Qed.

Lemma py_nth_nat {A} (l : list A) (i : nat) : py_nth l (Z.of_nat i) = l !! i.
Proof.
  unfold py_nth. rewrite bool_decide_true by lia. by rewrite Nat2Z.id.
Qed.

Lemma positional_from_lookup p idx k z :
  positional_from p idx = true → idx !! k = Some (LInt z) →
  z = Z.of_nat (p + k).
Proof.
  revert p k. induction idx as [|l idx IH]; intros p k Hpos Hk; [done|].
  destruct k as [|k]; simpl in Hk.
  - simplify_eq. simpl in Hpos. apply andb_prop in Hpos as [Hz _].
    apply bool_decide_eq_true in Hz. subst. f_equal. lia.
  - assert (positional_from (S p) idx = true) as Hpos'.
    { destruct l; simpl in Hpos; [apply andb_prop in Hpos as [_ ?]|]; done. }
    rewrite (IH _ _ Hpos' Hk). f_equal. lia.
Qed.

Lemma positions_from_positional p idx (i : nat) :
  positional_from p idx = true →
  positions_from p (LInt (Z.of_nat i)) idx
  = if bool_decide ((p ≤ i)%nat ∧ idx !! (i - p)%nat = Some (LInt (Z.of_nat i)))
    then [i] else [].
Proof.
  revert p. induction idx as [|l idx IH]; intros p Hpos.
  - simpl. rewrite bool_decide_false; [done|]. intros [_ ?]. done.
  - assert (positional_from (S p) idx = true) as Hpos'.
    { destruct l; simpl in Hpos; [apply andb_prop in Hpos as [_ ?]|]; done. }
    simpl. rewrite (IH _ Hpos').
    destruct (decide (l = LInt (Z.of_nat i))) as [->|Hne].
    + simpl in Hpos. apply andb_prop in Hpos as [Hz _].
      apply bool_decide_eq_true in Hz. apply Nat2Z.inj in Hz. subst p.
      rewrite bool_decide_true by done.
      rewrite bool_decide_false by lia.
      rewrite bool_decide_true; [done|].
      split; [lia|]. by rewrite Nat.sub_diag.
    + rewrite (bool_decide_false (l = _)) by done.
      assert (((S p ≤ i)%nat ∧ idx !! (i - S p)%nat = Some (LInt (Z.of_nat i)))
              ↔ ((p ≤ i)%nat ∧ (l :: idx) !! (i - p)%nat = Some (LInt (Z.of_nat i))))
        as Hiff; [|by rewrite (bool_decide_ext _ _ Hiff)].
      split.
      * intros [Hle Hk]. split; [lia|].
        replace (i - p)%nat with (S (i - S p)) by lia. done.
      * intros [Hle Hk].
        destruct (decide (i = p)) as [->|Hip].
        { rewrite Nat.sub_diag in Hk. simpl in Hk. congruence. }
        split; [lia|].
        replace (i - p)%nat with (S (i - S p)) in Hk by lia. done.
Qed.

Lemma integer_index_no_string idx k s :
  idx !! k = Some (LStr s) → integer_index idx = false.
Proof.
  intros Hk. destruct idx as [|l idx]; [done|].
  unfold integer_index. apply not_true_is_false. intros Hall.
  rewrite forallb_forall in Hall.
  apply list_elem_of_lookup_2, list_elem_of_In, Hall in Hk. done.
Qed.

(** On rows addressable by position, [series[i]] is the cell at position
    [i] for every [i] below the number of rows. *)
Lemma series_getitem_positional idx vals (i : nat) :
  positional idx = true → length vals = length idx →
  (i < length idx)%nat →
  ∃ c, vals !! i = Some c ∧
       series_getitem {| s_index := idx; s_values := vals |} (Z.of_nat i)
       = Ok (Scalar c).
Proof.
  intros Hpos Hlen Hi.
  destruct (lookup_lt_is_Some_2 vals i) as [c Hc]; [lia|].
  exists c. split; [done|].
  unfold series_getitem, positions. simpl.
  rewrite (positions_from_positional _ _ _ Hpos).
  case_bool_decide as Hcase.
  - by rewrite Hc.
  - destruct (lookup_lt_is_Some_2 idx i) as [l Hl]; [lia|].
    destruct l as [z|s].
    + exfalso. apply Hcase. split; [lia|]. rewrite Nat.sub_0_r.
      pose proof (positional_from_lookup _ _ _ _ Hpos Hl) as Hz.
      simpl in Hz. by subst z.
    + rewrite (integer_index_no_string _ _ _ Hl).
      by rewrite py_nth_nat, Hc.
Qed.

(** Past the last row the access raises: [KeyError] on an integer-typed
    index, [IndexError] otherwise. *)
Lemma series_getitem_out_of_range idx vals (i : nat) :
  positional idx = true → length vals = length idx →
  (length idx ≤ i)%nat →
  series_getitem {| s_index := idx; s_values := vals |} (Z.of_nat i)
  = Raise (if integer_index idx then KeyError (PyInt (Z.of_nat i)) else IndexError).
Proof.
  intros Hpos Hlen Hi.
  unfold series_getitem, positions. simpl.
  rewrite (positions_from_positional _ _ _ Hpos).
  rewrite bool_decide_false.
  2: { intros [_ Hk]. apply lookup_lt_Some in Hk. lia. }
  destruct (integer_index idx); [done|].
  rewrite py_nth_nat, lookup_ge_None_2 by lia. done.
Qed.

Lemma filter_name_absent (name : string) (cols : list (string * list cell)) :
  name ∉ cols.*1 → filter (λ col, col.1 = name) cols = [].
Proof.
  induction cols as [|[n v] cols IH]; [done|].
  rewrite fmap_cons, not_elem_of_cons. intros [Hne Hnot].
  rewrite filter_cons_False by naive_solver. auto.
Qed.

Lemma filter_name_unique (name : string) vals (cols : list (string * list cell)) :
  NoDup cols.*1 → (name, vals) ∈ cols →
  filter (λ col, col.1 = name) cols = [(name, vals)].
Proof.
  induction cols as [|[n v] cols IH]; intros Hnd Hin.
  - by apply elem_of_nil in Hin.
  - rewrite fmap_cons in Hnd. apply NoDup_cons in Hnd as [Hn Hnd].
    apply elem_of_cons in Hin as [Heq|Hin].
    + simplify_eq. rewrite filter_cons_True by done.
      by rewrite filter_name_absent.
    + assert (n ≠ name) as Hne.
      { intros ->. apply Hn. apply list_elem_of_fmap. by exists (name, vals). }
      rewrite filter_cons_False by naive_solver. auto.
Qed.

Lemma df_getitem_absent df name :
  name ∉ headers df → df_getitem df name = Raise (KeyError (PyStr name)).
Proof. intros H. unfold df_getitem. by rewrite filter_name_absent. Qed.

Lemma df_getitem_unique df name vals :
  NoDup (headers df) → (name, vals) ∈ df_columns df →
  df_getitem df name
  = Ok (ASeries {| s_index := df_index df; s_values := vals |}).
Proof.
  intros Hnd Hin. unfold df_getitem. by rewrite (filter_name_unique _ vals).
Qed.

(** [df[name]] raises only for an absent name, and then a [KeyError]. *)
Lemma df_getitem_raise_inv df name e :
  df_getitem df name = Raise e → (name ∉ headers df) ∧ e = KeyError (PyStr name).
Proof.
  unfold df_getitem, headers.
  destruct (filter _ _) as [|col [|col' cols]] eqn:E; intros H; simplify_eq.
  split; [|done]. intros Hin.
  apply list_elem_of_fmap in Hin as (col & Hname & Hin).
  assert (col ∈ filter (λ col : string * list cell, col.1 = name) (df_columns df))
    as Hf by (apply list_elem_of_filter; done).
  rewrite E in Hf. by apply elem_of_nil in Hf.
Qed.

(** ** The download loops of [read_synapse_table_files] *)

Lemma resolved_mono syn schema td out_path h h2 column_name irow entry :
  resolved syn schema td out_path h column_name irow entry →
  h `prefix_of` h2 →
  resolved syn schema td out_path h2 column_name irow entry.
Proof.
  intros (c & Hc & Hentry) Hpre. exists c. split; [done|].
  destruct c; [done| |done].
  destruct Hentry as (before & fileinfo & Hcall & Hrest).
  exists before, fileinfo. split; [|done]. by etrans.
Qed.

Lemma download_row_ok_inv syn schema td out_path column_name sel irow acc h fs h' :
  df_getitem td column_name = Ok sel →
  download_row syn schema column_name out_path sel irow acc h = (Ok fs, h') →
  h `prefix_of` h' ∧
  ∃ entry, fs = acc ++ [entry] ∧
           resolved syn schema td out_path h' column_name irow entry.
Proof.
  intros Hsel H. unfold download_row in H.
  apply bind_ok_inv in H as (x & h1 & Hx & H). rewrite lift_run in Hx.
  injection Hx as Hx <-.
  apply bind_ok_inv in H as (missing & h2 & Hm & H). rewrite lift_run in Hm.
  injection Hm as Hm <-.
  assert (cell_at td column_name irow = Ok x) as Hcell.
  { unfold cell_at. by rewrite Hsel. }
  destruct x as [[|n|s]|parent ps]; simpl in Hm; simplify_eq;
    cbv beta iota in H.
  - (* the missing marker *)
    rewrite ret_run in H. simplify_eq. split; [done|].
    exists None. split; [done|]. by exists NaN.
  - (* a file identifier *)
    apply bind_ok_inv in H as (fileinfo & h3 & Hdl & H).
    unfold syn_downloadTableFile in Hdl.
    apply invoke_ok_inv in Hdl as [Hreply ->].
    assert (h `prefix_of` h ++ [DownloadTableFile schema irow 0 column_name out_path])
      as Hpre by (by apply prefix_app_r).
    destruct (dict_truthy fileinfo) eqn:Htruthy.
    + apply bind_ok_inv in H as (path & h4 & Hpath & H).
      rewrite lift_run in Hpath. rewrite ret_run in H. simplify_eq.
      split; [done|]. exists (Some path). split; [done|].
      exists (Num n). split; [done|]. exists h, fileinfo.
      split; [done|]. split; [done|]. rewrite Htruthy.
      destruct fileinfo as [d|]; [|done]. simpl in *.
      unfold dict_getitem in *. destruct (d !! "path") eqn:Hd; simplify_eq.
      by exists d, path.
    + rewrite ret_run in H. simplify_eq.
      split; [done|]. exists (Some ""). split; [done|].
      exists (Num n). split; [done|]. exists h, fileinfo.
      split; [done|]. split; [done|]. by rewrite Htruthy.
  - destruct (object_dtype parent); discriminate.
Qed.

Lemma download_rows_ok_inv syn schema td out_path column_name sel irows acc h fs h' :
  df_getitem td column_name = Ok sel →
  for_in irows (download_row syn schema column_name out_path sel) acc h
    = (Ok fs, h') →
  h `prefix_of` h' ∧
  ∃ entries, fs = acc ++ entries ∧
             Forall2 (resolved syn schema td out_path h' column_name) irows entries.
Proof.
  intros Hsel. revert acc h.
  induction irows as [|irow irows IH]; intros acc h H; simpl in H.
  - rewrite ret_run in H. simplify_eq. split; [done|].
    exists []. by rewrite app_nil_r.
  - apply bind_ok_inv in H as (acc1 & h1 & Hrow & H).
    apply (download_row_ok_inv _ _ td) in Hrow as (Hpre1 & entry & -> & Hentry);
      [|done].
    apply IH in H as (Hpre2 & entries & -> & Hentries).
    split; [by etrans|].
    exists (entry :: entries). split; [by rewrite <- app_assoc|].
    constructor; [|done]. by eapply resolved_mono.
Qed.

Lemma download_column_ok_inv syn schema td limit out_path column_name files h
    files' h' :
  download_column syn schema td limit out_path column_name files h
    = (Ok files', h') →
  h `prefix_of` h' ∧
  ∃ irows fs, py_range limit = Ok irows ∧ files' = files ++ [fs] ∧
              Forall2 (resolved syn schema td out_path h' column_name) irows fs.
Proof.
  intros H. unfold download_column in H.
  apply bind_ok_inv in H as (sel & h1 & Hsel & H). rewrite lift_run in Hsel.
  apply bind_ok_inv in H as (irows & h2 & Hrange & H). rewrite lift_run in Hrange.
  apply bind_ok_inv in H as (fs & h3 & Hrows & H). rewrite ret_run in H.
  simplify_eq.
  apply (download_rows_ok_inv _ _ td) in Hrows as (Hpre & entries & -> & Hentries);
    [|done].
  split; [done|]. by exists irows, entries.
Qed.

Lemma download_columns_ok_inv syn schema td limit out_path column_names files h
    files' h' :
  for_in column_names (download_column syn schema td limit out_path) files h
    = (Ok files', h') →
  h `prefix_of` h' ∧
  ∃ seqs, files' = files ++ seqs ∧
    Forall2 (λ column_name fs,
               ∃ irows, py_range limit = Ok irows ∧
                 Forall2 (resolved syn schema td out_path h' column_name) irows fs)
            column_names seqs.
Proof.
  revert files h.
  induction column_names as [|c cs IH]; intros files h H; simpl in H.
  - rewrite ret_run in H. simplify_eq. split; [done|].
    exists []. by rewrite app_nil_r.
  - apply bind_ok_inv in H as (files1 & h1 & Hcol & H).
    apply download_column_ok_inv in Hcol
      as (Hpre1 & irows & fs & Hrange & -> & Hfs).
    apply IH in H as (Hpre2 & seqs & -> & Hseqs).
    split; [by etrans|].
    exists (fs :: seqs). split; [by rewrite <- app_assoc|].
    constructor; [|done]. exists irows. split; [done|].
    eapply Forall2_impl; [exact Hfs|].
    intros irow entry Hr. by eapply resolved_mono.
Qed.

(** The limit the loops run with is an integer: the one given, or the
    number of rows. *)
Lemma effective_limit_range download_limit td :
  py_range (if bool_decide (type download_limit ≠ int_t)
            then PyInt (shape0 td) else download_limit)
  = Ok (range (rows_to_resolve download_limit td)).
Proof. destruct download_limit; reflexivity. Qed.

(** Every run of [read_synapse_table_files] that returns: the table is
    the answer of the query, and there is one sequence per requested
    column, holding one resolved entry per row of the range. *)
Lemma read_ok_inv syn synapse_table_id column_names download_limit out_path
    username password h td files h' :
  read_synapse_table_files syn synapse_table_id column_names download_limit
                           out_path username password h = (Ok (td, files), h') →
  ∃ schema,
    query_answers syn h username password synapse_table_id schema td ∧
    Forall2 (λ column_name fs,
               Forall2 (resolved syn schema td out_path h' column_name)
                       (range (rows_to_resolve download_limit td)) fs)
            column_names files.
Proof.
  intros H. unfold read_synapse_table_files in H. rewrite log_in_run in H.
  client_calls.
  apply bind_ok_inv in H as ([] & h1 & Hlogin & H).
  apply invoke_ok_inv in Hlogin as [Hlogin ->].
  apply bind_ok_inv in H as (schema & h2 & Hget & H).
  apply invoke_ok_inv in Hget as [Hget ->].
  apply bind_ok_inv in H as (table_data & h3 & Hquery & H).
  apply invoke_ok_inv in Hquery as [Hquery ->].
  rewrite <- app_assoc in Hquery. simpl in Hquery.
  exists schema.
  destruct column_names as [|c cs].
  - rewrite ret_run in H. simplify_eq. split; [done|]. constructor.
  - apply bind_ok_inv in H as (files1 & h4 & Hloop & H).
    rewrite ret_run in H. simplify_eq.
    split; [done|].
    apply download_columns_ok_inv in Hloop as (_ & seqs & -> & Hseqs).
    simpl. eapply Forall2_impl; [exact Hseqs|].
    intros column_name fs (irows & Hrange & Hfs).
    rewrite effective_limit_range in Hrange. by simplify_eq.
Qed.

(** *** The loops run to the end on a table of file references *)

Lemma download_row_runs syn schema column_name out_path idx vals (i : nat) acc h :
  positional idx = true → length vals = length idx →
  forallb (λ c, negb (is_Str c)) vals = true →
  (i < length idx)%nat → downloads_answer syn schema out_path →
  ∃ entry h',
    download_row syn schema column_name out_path
                 (ASeries {| s_index := idx; s_values := vals |})
                 (Z.of_nat i) acc h
    = (Ok (acc ++ [entry]), h').
Proof.
  intros Hpos Hlen Hnum Hi Hdl. unfold download_row.
  destruct (series_getitem_positional idx vals i Hpos Hlen Hi) as (c & Hc & Hget).
  erewrite bind_ok by (rewrite lift_run; simpl; by rewrite Hget).
  rewrite forallb_forall in Hnum.
  apply list_elem_of_lookup_2, list_elem_of_In, Hnum in Hc.
  destruct c as [|n|s]; [| |done]; simpl.
  - erewrite bind_ok by apply lift_run. cbv beta iota.
    rewrite ret_run. eauto.
  - erewrite bind_ok by apply lift_run. cbv beta iota.
    destruct (Hdl h (Z.of_nat i) column_name) as (fileinfo & Hreply & Hinfo).
    client_calls.
    erewrite bind_ok by (apply invoke_done, Hreply).
    destruct (dict_truthy fileinfo) eqn:Htruthy.
    + destruct (Hinfo eq_refl) as (d & path & -> & Hpath).
      erewrite bind_ok.
      2: { rewrite lift_run. simpl. unfold dict_getitem. by rewrite Hpath. }
      rewrite ret_run. eauto.
    + rewrite ret_run. eauto.
Qed.

Lemma download_rows_run syn schema column_name out_path idx vals irows acc h :
  positional idx = true → length vals = length idx →
  forallb (λ c, negb (is_Str c)) vals = true →
  Forall (λ irow, 0 ≤ irow < Z.of_nat (length idx)) irows →
  downloads_answer syn schema out_path →
  ∃ fs h',
    for_in irows
           (download_row syn schema column_name out_path
                         (ASeries {| s_index := idx; s_values := vals |}))
           acc h
    = (Ok fs, h').
Proof.
  intros Hpos Hlen Hnum Hrows Hdl. revert acc h.
  induction Hrows as [|irow irows Hirow _ IH]; intros acc h; simpl.
  - rewrite ret_run. eauto.
  - destruct (download_row_runs syn schema column_name out_path idx vals
                (Z.to_nat irow) acc h) as (entry & h1 & Hrow); try done; [lia|].
    rewrite Z2Nat.id in Hrow by lia.
    erewrite bind_ok by exact Hrow. apply IH.
Qed.

Lemma range_in_bounds n (N : nat) :
  n ≤ Z.of_nat N → Forall (λ irow, 0 ≤ irow < Z.of_nat N) (range n).
Proof.
  intros Hn. apply Forall_forall. intros irow Hin.
  apply elem_of_range in Hin. lia.
Qed.

Lemma download_column_runs syn schema td n out_path column_name files h :
  positional (df_index td) = true →
  file_column td column_name →
  n ≤ shape0 td →
  downloads_answer syn schema out_path →
  ∃ files' h',
    download_column syn schema td (PyInt n) out_path column_name files h
    = (Ok files', h').
Proof.
  intros Hpos (vals & Hsel & Hlen & Hnum) Hn Hdl. unfold download_column.
  erewrite bind_ok by (rewrite lift_run; by rewrite Hsel).
  erewrite bind_ok by (rewrite lift_run; reflexivity).
  destruct (download_rows_run syn schema column_name out_path (df_index td) vals
              (range n) [] h) as (fs & h1 & Hrows); try done.
  { by apply range_in_bounds. }
  erewrite bind_ok by exact Hrows. rewrite ret_run. eauto.
Qed.

Lemma download_columns_run syn schema td n out_path column_names files h :
  positional (df_index td) = true →
  Forall (file_column td) column_names →
  n ≤ shape0 td →
  downloads_answer syn schema out_path →
  ∃ files' h',
    for_in column_names (download_column syn schema td (PyInt n) out_path) files h
    = (Ok files', h').
Proof.
  intros Hpos Hcols Hn Hdl. revert files h.
  induction Hcols as [|c cs Hc _ IH]; intros files h; simpl.
  - rewrite ret_run. eauto.
  - destruct (download_column_runs syn schema td n out_path c files h)
      as (files1 & h1 & Hcol); try done.
    erewrite bind_ok by exact Hcol. apply IH.
Qed.

(** On a table of file references whose rows are addressable by
    position, with a limit within the rows and a service that answers,
    [read_synapse_table_files] returns. *)
Lemma read_runs syn synapse_table_id column_names download_limit out_path
    username password h schema td :
  query_answers syn h username password synapse_table_id schema td →
  positional (df_index td) = true →
  Forall (file_column td) column_names →
  rows_to_resolve download_limit td ≤ shape0 td →
  downloads_answer syn schema out_path →
  ∃ files h',
    read_synapse_table_files syn synapse_table_id column_names download_limit
                             out_path username password h
    = (Ok (td, files), h').
Proof.
  intros (Hlogin & Hget & Hquery) Hpos Hcols Hn Hdl.
  unfold read_synapse_table_files. rewrite log_in_run. client_calls.
  erewrite bind_ok by (apply invoke_done, Hlogin).
  erewrite bind_ok by (apply invoke_done, Hget).
  erewrite bind_ok.
  2: { apply invoke_done. rewrite <- app_assoc. exact Hquery. }
  destruct column_names as [|c cs].
  - rewrite ret_run. eauto.
  - set (cols := c :: cs) in *. clearbody cols.
    assert ((if bool_decide (type download_limit ≠ int_t)
             then PyInt (shape0 td) else download_limit)
            = PyInt (rows_to_resolve download_limit td)) as ->
      by (by destruct download_limit).
    edestruct (download_columns_run syn schema td) as (files & h1 & Hloop);
      [done..|].
    erewrite bind_ok by exact Hloop. rewrite ret_run. eauto.
Qed.

(** ** The demonstration service meets the assumptions *)

Lemma demo_query_answers h username password synapse_table_id :
  query_answers Demo.syn h username password synapse_table_id
                (Demo.schema synapse_table_id) Demo.table.
Proof. repeat split. Qed.

Lemma demo_downloads_answer schema out_path :
  downloads_answer Demo.syn schema out_path.
Proof.
  intros before irow column_name. simpl.
  case_bool_decide; eexists; (split; [reflexivity|]); [done|].
  intros _. do 2 eexists. split; [reflexivity|]. apply lookup_singleton_eq.
Qed.

Lemma demo_file_columns :
  Forall (file_column Demo.table) ["audio_audio.m4a"; "audio_countdown.m4a"].
Proof.
  repeat constructor; eexists; (split; [reflexivity|]); split; reflexivity.
Qed.

(** ** Resolving the file columns *)

(** C1. On a table of file references, for every requested column and
    every row index from 0 to the limit minus one, the run records one
    entry: [None] when the cell is the missing marker; otherwise the file
    is requested into [out_path] and the entry is the path of the answer,
    or the empty string when the answer holds no file info. *)
Theorem read_resolves_file_columns syn synapse_table_id column_names
    download_limit out_path username password h schema td :
  query_answers syn h username password synapse_table_id schema td →
  positional (df_index td) = true →
  Forall (file_column td) column_names →
  rows_to_resolve download_limit td ≤ shape0 td →
  downloads_answer syn schema out_path →
  ∃ files h',
    read_synapse_table_files syn synapse_table_id column_names download_limit
                             out_path username password h
    = (Ok (td, files), h') ∧
    ∀ (k : nat) column_name irow,
      column_names !! k = Some column_name →
      0 ≤ irow < rows_to_resolve download_limit td →
      ∃ fs entry,
        files !! k = Some fs ∧ fs !! Z.to_nat irow = Some entry ∧
        resolved syn schema td out_path h' column_name irow entry.
Proof.
  intros Hq Hpos Hcols Hn Hdl.
  destruct (read_runs syn synapse_table_id column_names download_limit out_path
              username password h schema td) as (files & h' & Hrun); try done.
  exists files, h'. split; [done|].
  apply read_ok_inv in Hrun as (schema' & Hq' & Hfiles).
  assert (schema' = schema) as ->.
  { destruct Hq as (_ & Hget & _), Hq' as (_ & Hget' & _). congruence. }
  intros k column_name irow Hk Hirow.
  destruct (Forall2_lookup_l _ _ _ _ _ Hfiles Hk) as (fs & Hfs & Hrows).
  assert (range (rows_to_resolve download_limit td) !! Z.to_nat irow = Some irow)
    as Hr.
  { rewrite range_lookup by lia. f_equal. lia. }
  destruct (Forall2_lookup_l _ _ _ _ _ Hrows Hr) as (entry & Hentry & Hres).
  by exists fs, entry.
Qed.

Lemma read_resolves_file_columns_witness :
  ∃ files h',
    read_synapse_table_files Demo.syn "syn4590865"
      ["audio_audio.m4a"; "audio_countdown.m4a"] (PyInt 3) "out" "" "" []
    = (Ok (Demo.table, files), h') ∧
    ∀ (k : nat) column_name irow,
      ["audio_audio.m4a"; "audio_countdown.m4a"] !! k = Some column_name →
      0 ≤ irow < rows_to_resolve (PyInt 3) Demo.table →
      ∃ fs entry,
        files !! k = Some fs ∧ fs !! Z.to_nat irow = Some entry ∧
        resolved Demo.syn (Demo.schema "syn4590865") Demo.table "out" h'
                 column_name irow entry.
Proof.
  apply (read_resolves_file_columns Demo.syn "syn4590865"
           ["audio_audio.m4a"; "audio_countdown.m4a"] (PyInt 3) "out" "" "" []
           (Demo.schema "syn4590865") Demo.table).
  - apply demo_query_answers.
  - reflexivity.
  - apply demo_file_columns.
  - vm_compute. discriminate.
  - apply demo_downloads_answer.
Defined.

(** C3. With file columns requested, the result holds exactly one
    sequence per requested column, in order; each sequence has as many
    entries as the limit says when the limit is an integer, and as many
    as the table has rows when the limit is absent. *)
Theorem read_one_sequence_per_column syn synapse_table_id column_names
    download_limit out_path username password h schema td :
  column_names ≠ [] →
  query_answers syn h username password synapse_table_id schema td →
  positional (df_index td) = true →
  Forall (file_column td) column_names →
  0 ≤ rows_to_resolve download_limit td ≤ shape0 td →
  downloads_answer syn schema out_path →
  ∃ files h',
    read_synapse_table_files syn synapse_table_id column_names download_limit
                             out_path username password h
    = (Ok (td, files), h') ∧
    length files = length column_names ∧
    Forall (λ fs : list (option string),
              match download_limit with
              | PyInt n => Z.of_nat (length fs) = n
              | _ => Z.of_nat (length fs) = shape0 td
              end) files.
Proof.
  intros _ Hq Hpos Hcols Hn Hdl.
  destruct (read_runs syn synapse_table_id column_names download_limit out_path
              username password h schema td) as (files & h' & Hrun);
    try done; [lia|].
  exists files, h'. split; [done|].
  apply read_ok_inv in Hrun as (schema' & _ & Hfiles).
  split; [symmetry; by eapply Forall2_length|].
  apply Forall_forall. intros fs Hin.
  apply list_elem_of_lookup in Hin as [k Hk].
  destruct (Forall2_lookup_r _ _ _ _ _ Hfiles Hk) as (c & _ & Hrows).
  apply Forall2_length in Hrows. rewrite range_length in Hrows.
  assert (Z.of_nat (length fs) = rows_to_resolve download_limit td) as Hlen
    by lia.
  by destruct download_limit.
Qed.

Lemma read_one_sequence_per_column_witness :
  ∃ files h',
    read_synapse_table_files Demo.syn "syn4590865"
      ["audio_audio.m4a"; "audio_countdown.m4a"] PyNone "out" "" "" []
    = (Ok (Demo.table, files), h') ∧
    length files = 2%nat ∧
    Forall (λ fs : list (option string), Z.of_nat (length fs) = 3) files.
Proof.
  apply (read_one_sequence_per_column Demo.syn "syn4590865"
           ["audio_audio.m4a"; "audio_countdown.m4a"] PyNone "out" "" "" []
           (Demo.schema "syn4590865") Demo.table).
  - discriminate.
  - apply demo_query_answers.
  - reflexivity.
  - apply demo_file_columns.
  - vm_compute. split; discriminate.
  - apply demo_downloads_answer.
Defined.

(** ** Row indices and the number of rows *)

Lemma for_in_app {A S} (xs ys : list A) (body : A → S → M S) s h :
  for_in (xs ++ ys) body s h = (for_in xs body s ≫= for_in ys body) h.
Proof.
  revert s h. induction xs as [|x xs IH]; intros s h; simpl.
  - reflexivity.
  - rewrite !bind_run. destruct (body x s h) as [[s1|e] h1]; [|done].
    rewrite IH. by rewrite bind_run.
Qed.

Lemma file_column_table_column df name : file_column df name → table_column df name.
Proof. intros (vals & ? & ? & _). by exists vals. Qed.

(** Within the rows, the cell access of the loop gives a cell. *)
Lemma cell_at_in_bounds td column_name irow :
  positional (df_index td) = true → table_column td column_name →
  0 ≤ irow < shape0 td →
  ∃ c, cell_at td column_name irow = Ok (Scalar c).
Proof.
  intros Hpos (vals & Hsel & Hlen) Hirow. unfold cell_at. rewrite Hsel. simpl.
  destruct (series_getitem_positional (df_index td) vals (Z.to_nat irow))
    as (c & _ & Hc); try done.
  { unfold shape0 in Hirow. lia. }
  rewrite Z2Nat.id in Hc by lia. eauto.
Qed.

(** At the first index past the rows, it raises. *)
Lemma cell_at_past_rows td column_name :
  positional (df_index td) = true → table_column td column_name →
  ∃ e, cell_at td column_name (shape0 td) = Raise e ∧ out_of_bounds e = true.
Proof.
  intros Hpos (vals & Hsel & Hlen). unfold cell_at. rewrite Hsel. simpl.
  unfold shape0. rewrite series_getitem_out_of_range by done.
  eexists. split; [done|]. by destruct (integer_index _).
Qed.

(** An out-of-bounds error of the loop body comes from the cell access. *)
Lemma download_row_raise_inv syn schema column_name out_path sel irow acc h e h' :
  download_row syn schema column_name out_path sel irow acc h = (Raise e, h') →
  out_of_bounds e = true →
  selection_getitem sel irow = Raise e.
Proof.
  unfold download_row. rewrite bind_run, lift_run.
  destruct (selection_getitem sel irow) as [x|e0]; [|by intros [= -> _]].
  rewrite bind_run, lift_run.
  destruct (np_isnan x) as [[]|e0] eqn:Hnan.
  - rewrite ret_run. discriminate.
  - client_calls. rewrite bind_run. unfold invoke at 1.
    destruct (downloadTableFile_reply _ _ _ _ _ _ _) as [fileinfo|msg].
    2: { intros [= <- _]. done. }
    destruct (dict_truthy fileinfo).
    + rewrite bind_run, lift_run. destruct fileinfo as [d|]; simpl.
      * unfold dict_getitem. destruct (d !! "path").
        -- rewrite ret_run. discriminate.
        -- intros [= <- _]. done.
      * intros [= <- _]. done.
    + rewrite ret_run. discriminate.
  - intros [= <- _] Hoob.
    destruct x as [[| |]|parent ps]; simpl in Hnan; simplify_eq; try done.
    destruct (object_dtype parent); by simplify_eq.
Qed.

Lemma download_rows_raise_inv syn schema column_name out_path sel irows acc h e h' :
  for_in irows (download_row syn schema column_name out_path sel) acc h
    = (Raise e, h') →
  out_of_bounds e = true →
  ∃ irow, irow ∈ irows ∧ selection_getitem sel irow = Raise e.
Proof.
  revert acc h. induction irows as [|irow irows IH]; intros acc h; simpl.
  - rewrite ret_run. discriminate.
  - rewrite bind_run.
    destruct (download_row _ _ _ _ _ _ _ _) as [[acc1|e0] h1] eqn:Hrow.
    + intros H Hoob. destruct (IH _ _ H Hoob) as (i & Hi & Hget).
      exists i. split; [by right|done].
    + intros [= -> ->] Hoob. exists irow. split; [by left|].
      by eapply download_row_raise_inv.
Qed.

Lemma download_column_raise_inv syn schema td n out_path column_name files h e h' :
  download_column syn schema td (PyInt n) out_path column_name files h
    = (Raise e, h') →
  out_of_bounds e = true →
  ∃ irow, irow ∈ range n ∧ cell_at td column_name irow = Raise e.
Proof.
  unfold download_column, cell_at. rewrite bind_run, lift_run.
  destruct (df_getitem td column_name) as [sel|e0] eqn:Hsel.
  2: { intros [= -> _] Hoob. apply df_getitem_raise_inv in Hsel as [_ ->]. done. }
  rewrite bind_run, lift_run. simpl py_range. cbv beta iota.
  rewrite bind_run.
  destruct (for_in _ _ _ _) as [[fs|e0] h1] eqn:Hrows.
  - rewrite ret_run. discriminate.
  - intros [= -> ->] Hoob. by eapply download_rows_raise_inv.
Qed.

Lemma download_columns_raise_inv syn schema td n out_path column_names files h e h' :
  for_in column_names (download_column syn schema td (PyInt n) out_path) files h
    = (Raise e, h') →
  out_of_bounds e = true →
  ∃ column_name irow,
    column_name ∈ column_names ∧ irow ∈ range n ∧
    cell_at td column_name irow = Raise e.
Proof.
  revert files h. induction column_names as [|c cs IH]; intros files h; simpl.
  - rewrite ret_run. discriminate.
  - rewrite bind_run.
    destruct (download_column _ _ _ _ _ _ _ _) as [[files1|e0] h1] eqn:Hcol.
    + intros H Hoob. destruct (IH _ _ H Hoob) as (c' & i & Hc' & Hi & Hget).
      exists c', i. split; [by right|done].
    + intros [= -> ->] Hoob.
      destruct (download_column_raise_inv _ _ _ _ _ _ _ _ _ _ Hcol Hoob)
        as (i & Hi & Hget).
      exists c, i. split; [by left|done].
Qed.

(** A run of [read_synapse_table_files] ends in an out-of-bounds error
    only through a cell access of the download loop: no other step
    compares a row index with anything. *)
Lemma read_raise_inv syn synapse_table_id column_names download_limit out_path
    username password h e h' :
  read_synapse_table_files syn synapse_table_id column_names download_limit
                           out_path username password h = (Raise e, h') →
  out_of_bounds e = true →
  ∃ td column_name irow,
    tableQuery_reply syn
      (h ++ [Login (credentials username password); Get synapse_table_id])
      (select_all synapse_table_id) = Done td ∧
    column_name ∈ column_names ∧
    irow ∈ range (rows_to_resolve download_limit td) ∧
    cell_at td column_name irow = Raise e.
Proof.
  unfold read_synapse_table_files. rewrite log_in_run. client_calls.
  rewrite bind_run. unfold invoke at 1.
  destruct (login_reply _ _ _) as [[]|msg]; [|by intros [= <- _]].
  rewrite bind_run. unfold invoke at 1.
  destruct (get_reply _ _ _) as [schema|msg]; [|by intros [= <- _]].
  rewrite bind_run. unfold invoke at 1. rewrite <- app_assoc. simpl app.
  destruct (tableQuery_reply _ _ _) as [td|msg] eqn:Hq; [|by intros [= <- _]].
  destruct column_names as [|c cs]; [rewrite ret_run; discriminate|].
  set (cols := c :: cs). clearbody cols.
  assert ((if bool_decide (type download_limit ≠ int_t)
           then PyInt (shape0 td) else download_limit)
          = PyInt (rows_to_resolve download_limit td)) as ->
    by (by destruct download_limit).
  rewrite bind_run.
  destruct (for_in _ _ _ _) as [[files|e0] h1] eqn:Hloop.
  - rewrite ret_run. discriminate.
  - intros [= -> ->] Hoob.
    destruct (download_columns_raise_inv _ _ _ _ _ _ _ _ _ _ Hloop Hoob)
      as (column_name & irow & Hc & Hirow & Hcell).
    by exists td, column_name, irow.
Qed.

(** C7. The download loop of [read_synapse_table_files] compares a row
    index with nothing but the limit.  For an integer limit between 0 and
    the number of rows of the table, every cell access of the loop is
    within the rows, and no run ends in an out-of-bounds error.  Nothing
    guards the first index past the rows: the same access raises there. *)
Theorem read_cell_access_in_bounds syn synapse_table_id column_names n out_path
    username password h schema td :
  query_answers syn h username password synapse_table_id schema td →
  positional (df_index td) = true →
  Forall (table_column td) column_names →
  0 ≤ n ≤ shape0 td →
  (∀ column_name irow,
     column_name ∈ column_names → irow ∈ range n →
     ∃ c, cell_at td column_name irow = Ok (Scalar c)) ∧
  (∀ e h',
     read_synapse_table_files syn synapse_table_id column_names (PyInt n)
                              out_path username password h = (Raise e, h') →
     out_of_bounds e = false) ∧
  (∀ column_name,
     column_name ∈ column_names →
     ∃ e, cell_at td column_name (shape0 td) = Raise e ∧ out_of_bounds e = true).
Proof.
  intros Hq Hpos Hcols Hn.
  rewrite Forall_forall in Hcols.
  assert (∀ column_name irow,
            column_name ∈ column_names → irow ∈ range n →
            ∃ c, cell_at td column_name irow = Ok (Scalar c)) as Hin.
  { intros c irow Hc Hirow. apply elem_of_range in Hirow.
    apply cell_at_in_bounds; [done|by apply Hcols|lia]. }
  split; [done|]. split.
  - intros e h' Hrun. apply not_true_is_false. intros Hoob.
    destruct (read_raise_inv _ _ _ _ _ _ _ _ _ _ Hrun Hoob)
      as (td' & c & irow & Hq' & Hc & Hirow & Hcell).
    destruct Hq as (_ & _ & Hquery). rewrite Hquery in Hq'. simplify_eq.
    destruct (Hin c irow Hc Hirow) as (v & Hv). congruence.
  - intros c Hc. apply cell_at_past_rows; [done|by apply Hcols].
Qed.

Lemma read_cell_access_in_bounds_witness :
  (∀ column_name irow,
     column_name ∈ ["audio_audio.m4a"; "audio_countdown.m4a"] →
     irow ∈ range 3 →
     ∃ c, cell_at Demo.table column_name irow = Ok (Scalar c)) ∧
  (∀ e h',
     read_synapse_table_files Demo.syn "syn4590865"
       ["audio_audio.m4a"; "audio_countdown.m4a"] (PyInt 3) "out" "" "" []
     = (Raise e, h') →
     out_of_bounds e = false) ∧
  (∀ column_name,
     column_name ∈ ["audio_audio.m4a"; "audio_countdown.m4a"] →
     ∃ e, cell_at Demo.table column_name (shape0 Demo.table) = Raise e ∧
          out_of_bounds e = true).
Proof.
  apply (read_cell_access_in_bounds Demo.syn "syn4590865"
           ["audio_audio.m4a"; "audio_countdown.m4a"] 3 "out" "" "" []
           (Demo.schema "syn4590865") Demo.table).
  - apply demo_query_answers.
  - reflexivity.
  - eapply Forall_impl; [apply demo_file_columns|].
    intros c. apply file_column_table_column.
  - vm_compute. split; discriminate.
Defined.

Lemma download_row_raises syn schema column_name out_path sel irow acc h e :
  selection_getitem sel irow = Raise e →
  download_row syn schema column_name out_path sel irow acc h = (Raise e, h).
Proof. intros Hget. unfold download_row. by rewrite bind_run, lift_run, Hget. Qed.

Lemma range_split n (N : nat) :
  Z.of_nat N < n →
  ∃ rest, range n = range (Z.of_nat N) ++ Z.of_nat N :: rest.
Proof.
  intros Hn. unfold range.
  replace (Z.to_nat n) with (N + S (Z.to_nat n - S N))%nat by lia.
  rewrite seq_app, fmap_app, Nat2Z.id. simpl. eauto.
Qed.

(** A limit above the number of rows is not caught: the loop resolves
    every row of the first column, then reads past the last one, and the
    call ends in an out-of-bounds error. *)
Lemma read_past_rows_raises syn synapse_table_id column_name column_names n
    out_path username password h schema td :
  query_answers syn h username password synapse_table_id schema td →
  positional (df_index td) = true →
  file_column td column_name →
  shape0 td < n →
  downloads_answer syn schema out_path →
  ∃ e h',
    read_synapse_table_files syn synapse_table_id (column_name :: column_names)
                             (PyInt n) out_path username password h
    = (Raise e, h') ∧
    out_of_bounds e = true.
Proof.
  intros (Hlogin & Hget & Hquery) Hpos Hcol Hn Hdl.
  destruct (cell_at_past_rows td column_name Hpos
              (file_column_table_column _ _ Hcol)) as (e & Hcell & Hoob).
  destruct Hcol as (vals & Hsel & Hlen & Hnum).
  unfold cell_at in Hcell. rewrite Hsel in Hcell.
  destruct (range_split n (length (df_index td)) Hn) as (rest & Hrange).
  destruct (download_rows_run syn schema column_name out_path (df_index td) vals
              (range (shape0 td)) [] (h ++ [Login (credentials username password);
                                           Get synapse_table_id;
                                           TableQuery (select_all synapse_table_id)]))
    as (fs & h1 & Hrows); try done.
  { by apply range_in_bounds. }
  exists e, h1. split; [|done].
  unfold read_synapse_table_files. rewrite log_in_run. client_calls.
  erewrite bind_ok by (apply invoke_done, Hlogin).
  erewrite bind_ok by (apply invoke_done, Hget).
  erewrite bind_ok.
  2: { apply invoke_done. rewrite <- app_assoc. exact Hquery. }
  rewrite <- !app_assoc. simpl app.
  apply bind_raise. simpl for_in. apply bind_raise.
  unfold download_column.
  erewrite bind_ok by (rewrite lift_run; by rewrite Hsel).
  erewrite bind_ok by (rewrite lift_run; reflexivity).
  apply bind_raise. rewrite Hrange, for_in_app.
  erewrite bind_ok by exact Hrows.
  simpl for_in. apply bind_raise. by apply download_row_raises.
Qed.

(** ** The limit when it is not an integer *)

(** C10. A [download_limit] whose type is not exactly [int] ([None], a
    float, a boolean, a string) is replaced by the number of rows of the
    table: the call behaves as with that integer.  On a table of file
    references the loop then runs over all rows: the call returns one
    sequence per requested column, each with one resolved entry for
    every row of the table.  A limit of type [int] bounds the loop: the
    call returns sequences of that many entries. *)
Theorem read_limit_not_int syn synapse_table_id column_names download_limit
    out_path username password h td :
  type download_limit ≠ int_t →
  tableQuery_reply syn
    (h ++ [Login (credentials username password); Get synapse_table_id])
    (select_all synapse_table_id) = Done td →
  read_synapse_table_files syn synapse_table_id column_names download_limit
                           out_path username password h
  = read_synapse_table_files syn synapse_table_id column_names
                             (PyInt (shape0 td)) out_path username password h ∧
  (∀ t files h',
     read_synapse_table_files syn synapse_table_id column_names download_limit
                              out_path username password h
     = (Ok (t, files), h') →
     Forall (λ fs : list (option string), Z.of_nat (length fs) = shape0 td) files) ∧
  (∀ n t files h',
     read_synapse_table_files syn synapse_table_id column_names (PyInt n)
                              out_path username password h
     = (Ok (t, files), h') →
     Forall (λ fs : list (option string), length fs = Z.to_nat n) files) ∧
  (∀ schema,
     query_answers syn h username password synapse_table_id schema td →
     positional (df_index td) = true →
     Forall (file_column td) column_names →
     downloads_answer syn schema out_path →
     (∃ files h',
        read_synapse_table_files syn synapse_table_id column_names
                                 download_limit out_path username password h
        = (Ok (td, files), h') ∧
        length files = length column_names ∧
        ∀ (k : nat) column_name,
          column_names !! k = Some column_name →
          ∃ fs,
            files !! k = Some fs ∧
            Z.of_nat (length fs) = shape0 td ∧
            ∀ irow,
              0 ≤ irow < shape0 td →
              ∃ entry,
                fs !! Z.to_nat irow = Some entry ∧
                resolved syn schema td out_path h' column_name irow entry) ∧
     (∀ n,
        n ≤ shape0 td →
        ∃ files h',
          read_synapse_table_files syn synapse_table_id column_names (PyInt n)
                                   out_path username password h
          = (Ok (td, files), h') ∧
          length files = length column_names ∧
          Forall (λ fs : list (option string), length fs = Z.to_nat n) files)).
Proof.
  intros Htype Hquery.
  assert (∀ limit t files h',
            read_synapse_table_files syn synapse_table_id column_names limit
                                     out_path username password h
            = (Ok (t, files), h') →
            Forall (λ fs : list (option string),
                      length fs = Z.to_nat (rows_to_resolve limit td)) files)
    as Hlen.
  { intros limit t files h' Hrun.
    apply read_ok_inv in Hrun as (schema & (_ & _ & Hquery') & Hfiles).
    rewrite Hquery in Hquery'. simplify_eq.
    apply Forall_forall. intros fs Hin.
    apply list_elem_of_lookup in Hin as [k Hk].
    destruct (Forall2_lookup_r _ _ _ _ _ Hfiles Hk) as (c & _ & Hrows).
    apply Forall2_length in Hrows. by rewrite range_length in Hrows. }
  assert (rows_to_resolve download_limit td = shape0 td) as Hall
    by (by destruct download_limit).
  split; [|split; [|split]].
  - unfold read_synapse_table_files. rewrite !log_in_run. client_calls.
    rewrite !bind_run.
    destruct (invoke (Login _) _ h) as [[[]|e] h1] eqn:E1; [|done].
    apply invoke_extends in E1 as ->. rewrite !bind_run.
    destruct (invoke (Get _) _ _) as [[schema|e] h2] eqn:E2; [|done].
    apply invoke_extends in E2 as ->. rewrite !bind_run.
    rewrite <- !app_assoc. simpl app.
    rewrite (invoke_done _ _ _ td) by exact Hquery.
    destruct column_names as [|c cs]; [done|].
    by rewrite (bool_decide_true (type download_limit ≠ int_t)).
  - intros t files h' Hrun. apply Hlen in Hrun.
    eapply Forall_impl; [exact Hrun|]. intros fs Hfs. simpl in Hfs.
    rewrite Hfs, Hall. unfold shape0. lia.
  - intros n t files h' Hrun. by apply Hlen in Hrun.
  - intros schema Hq Hpos Hcols Hdl. split.
    + destruct (read_runs syn synapse_table_id column_names download_limit
                  out_path username password h schema td)
        as (files & h' & Hrun); try done; [lia|].
      exists files, h'. split; [done|].
      apply read_ok_inv in Hrun as (schema' & Hq' & Hfiles).
      assert (schema' = schema) as ->.
      { destruct Hq as (_ & Hget & _), Hq' as (_ & Hget' & _). congruence. }
      split; [symmetry; by eapply Forall2_length|].
      intros k column_name Hk.
      destruct (Forall2_lookup_l _ _ _ _ _ Hfiles Hk) as (fs & Hfs & Hrows).
      rewrite Hall in Hrows.
      exists fs. split; [done|]. split.
      * apply Forall2_length in Hrows. rewrite range_length in Hrows.
        unfold shape0 in *. lia.
      * intros irow Hirow.
        assert (range (shape0 td) !! Z.to_nat irow = Some irow) as Hr.
        { rewrite range_lookup by lia. f_equal. lia. }
        destruct (Forall2_lookup_l _ _ _ _ _ Hrows Hr) as (entry & ? & ?).
        by exists entry.
    + intros n Hn.
      destruct (read_runs syn synapse_table_id column_names (PyInt n)
                  out_path username password h schema td)
        as (files & h' & Hrun); try done.
      exists files, h'. split; [done|]. split.
      * apply read_ok_inv in Hrun as (schema' & _ & Hfiles).
        symmetry. by eapply Forall2_length.
      * by apply Hlen in Hrun.
Qed.

Lemma read_limit_not_int_witness :
  read_synapse_table_files Demo.syn "syn4590865" ["audio_audio.m4a"]
                           (PyFloat 2 1) "out" "" "" []
  = read_synapse_table_files Demo.syn "syn4590865" ["audio_audio.m4a"]
                             (PyInt (shape0 Demo.table)) "out" "" "" [] ∧
  (∃ files h',
     read_synapse_table_files Demo.syn "syn4590865" ["audio_audio.m4a"]
                              (PyFloat 2 1) "out" "" "" []
     = (Ok (Demo.table, files), h') ∧
     length files = length ["audio_audio.m4a"] ∧
     ∀ (k : nat) column_name,
       ["audio_audio.m4a"] !! k = Some column_name →
       ∃ fs,
         files !! k = Some fs ∧
         Z.of_nat (length fs) = shape0 Demo.table ∧
         ∀ irow,
           0 ≤ irow < shape0 Demo.table →
           ∃ entry,
             fs !! Z.to_nat irow = Some entry ∧
             resolved Demo.syn (Demo.schema "syn4590865") Demo.table "out" h'
                      column_name irow entry) ∧
  (∃ files h',
     read_synapse_table_files Demo.syn "syn4590865" ["audio_audio.m4a"]
                              (PyInt 2) "out" "" "" []
     = (Ok (Demo.table, files), h') ∧
     length files = length ["audio_audio.m4a"] ∧
     Forall (λ fs : list (option string), length fs = Z.to_nat 2) files).
Proof.
  destruct (read_limit_not_int Demo.syn "syn4590865" ["audio_audio.m4a"]
              (PyFloat 2 1) "out" "" "" [] Demo.table)
    as (Hsame & _ & _ & Hruns).
  - discriminate.
  - reflexivity.
  - destruct (Hruns (Demo.schema "syn4590865")) as [Hall Hint].
    + apply demo_query_answers.
    + reflexivity.
    + repeat constructor; eexists; (split; [reflexivity|]); split; reflexivity.
    + apply demo_downloads_answer.
    + split; [exact Hsame|]. split; [exact Hall|].
      apply (Hint 2). vm_compute. discriminate.
Defined.

(** ** The writing functions, step by step *)

Lemma reset_index_ok td : reset_index td = Ok (renumbered td).
Proof.
  unfold reset_index, df_set_index. rewrite bool_decide_true; [done|].
  rewrite length_fmap, range_length. unfold shape0. lia.
Qed.

Lemma renumbered_shape0 td : shape0 (renumbered td) = shape0 td.
Proof.
  unfold shape0, renumbered. simpl.
  rewrite length_fmap, range_length. unfold shape0. lia.
Qed.

Lemma renumbered_clean td : clean_index (renumbered td).
Proof. unfold clean_index. by rewrite renumbered_shape0. Qed.

Lemma remove_loop_run remove_columns td h :
  for_in remove_columns
         (λ remove_column table_data, lift (df_delitem table_data remove_column))
         td h
  = (del_columns remove_columns td, h).
Proof.
  revert td. induction remove_columns as [|c cs IH]; intros td; simpl.
  - reflexivity.
  - rewrite bind_run, lift_run. destruct (df_delitem td c); [apply IH|done].
Qed.

Lemma store_tail_run {A} syn atc table_name synapse_project_id inc td (a : A) h :
  (columns ← lift_reply (atc td);
   _ ← syn_store syn (ETable (ESchema (new_Schema table_name columns
                                                   synapse_project_id inc)) td);
   mret a) h
  = match store_run syn atc table_name synapse_project_id inc td h with
    | (Ok _, h') => (Ok a, h')
    | (Raise e, h') => (Raise e, h')
    end.
Proof.
  unfold store_run, lift_reply. client_calls. rewrite bind_run, lift_run.
  destruct (atc td) as [columns|msg]; [|done].
  rewrite bind_run. unfold invoke. simpl.
  by destruct (store_reply _ _ _).
Qed.

(** The calls of the last steps: at most one, the store of the table. *)
Lemma store_run_calls syn atc table_name synapse_project_id inc td h r h' :
  store_run syn atc table_name synapse_project_id inc td h = (r, h') →
  ∃ calls, h' = h ++ calls ∧ Forall (stores (λ t, t = td)) calls ∧
    ∀ t, r = Ok t →
         t = td ∧ ∃ schema, calls = [Store (ETable schema td)].
Proof.
  unfold store_run. destruct (atc td) as [columns|msg].
  - simpl. destruct (store_reply _ _ _); intros [= <- <-];
      (eexists; split; [reflexivity|]; split; [by repeat constructor|]);
      intros t [= <-]; eauto.
  - intros [= <- <-]. exists []. rewrite app_nil_r. by repeat split.
Qed.

Lemma copy_run syn atc synapse_table_id synapse_project_id table_name
    remove_columns username password h td :
  let cred := credentials username password in
  login_reply syn h cred = Done () →
  tableQuery_reply syn (h ++ [Login cred]) (select_all synapse_table_id) = Done td →
  copy_synapse_table syn atc synapse_table_id synapse_project_id table_name
                     remove_columns username password h
  = match del_columns remove_columns td with
    | Raise e => (Raise e, h ++ [Login cred; TableQuery (select_all synapse_table_id)])
    | Ok td1 =>
        match store_run syn atc table_name synapse_project_id (Some false)
                        (renumbered td1)
                        (h ++ [Login cred; TableQuery (select_all synapse_table_id)])
        with
        | (Ok t, h') => (Ok (t, table_name, synapse_project_id), h')
        | (Raise e, h') => (Raise e, h')
        end
    end.
Proof.
  intros cred Hlogin Hquery.
  unfold copy_synapse_table. rewrite log_in_run. fold cred.
  unfold syn_login, syn_tableQuery.
  erewrite bind_ok by (apply invoke_done, Hlogin).
  erewrite bind_ok by (apply invoke_done, Hquery).
  rewrite <- app_assoc. simpl app.
  rewrite bind_run.
  assert (∀ h0,
            match remove_columns with
            | [] => mret td
            | _ => for_in remove_columns
                     (λ remove_column table_data,
                        lift (df_delitem table_data remove_column)) td
            end h0 = (del_columns remove_columns td, h0)) as ->.
  { intros h0. destruct remove_columns; [done|apply remove_loop_run]. }
  destruct (del_columns remove_columns td) as [td1|e]; [|done].
  rewrite bind_run, lift_run, reset_index_ok. cbv zeta.
  rewrite store_tail_run.
  destruct (store_run _ _ _ _ _ _ _) as [[t|e] h'] eqn:Hstore; [|done].
  apply store_run_calls in Hstore as (calls & _ & _ & Ht).
  destruct (Ht t eq_refl) as [Heq _]. by rewrite Heq.
Qed.

Lemma write_run syn atc table_data synapse_project_id table_name username
    password h :
  let cred := credentials username password in
  login_reply syn h cred = Done () →
  write_synapse_table syn atc table_data synapse_project_id table_name
                      username password h
  = match store_run syn atc table_name synapse_project_id (Some false)
                    (renumbered table_data) (h ++ [Login cred])
    with
    | (Ok _, h') => (Ok (), h')
    | (Raise e, h') => (Raise e, h')
    end.
Proof.
  intros cred Hlogin.
  unfold write_synapse_table. rewrite log_in_run. fold cred.
  unfold syn_login, syn_tableQuery.
  erewrite bind_ok by (apply invoke_done, Hlogin).
  rewrite bind_run, lift_run, reset_index_ok. cbv zeta.
  apply store_tail_run.
Qed.

Lemma concatenate_run syn atc union_indexes frames synapse_project_id table_name
    username password h :
  let cred := credentials username password in
  login_reply syn h cred = Done () →
  concatenate_tables_to_synapse_table syn atc union_indexes frames
                                      synapse_project_id table_name
                                      username password h
  = match pd_concat_axis1 union_indexes frames with
    | Raise e => (Raise e, h ++ [Login cred])
    | Ok td =>
        match store_run syn atc table_name synapse_project_id None td
                        (h ++ [Login cred])
        with
        | (Ok t, h') => (Ok (t, synapse_project_id), h')
        | (Raise e, h') => (Raise e, h')
        end
    end.
Proof.
  intros cred Hlogin.
  unfold concatenate_tables_to_synapse_table. rewrite log_in_run. fold cred.
  unfold syn_login.
  erewrite bind_ok by (apply invoke_done, Hlogin).
  rewrite bind_run, lift_run.
  destruct (pd_concat_axis1 union_indexes frames) as [td|e]; [|done].
  cbv zeta. rewrite store_tail_run.
  destruct (store_run _ _ _ _ _ _ _) as [[t|e] h'] eqn:Hstore; [|done].
  apply store_run_calls in Hstore as (calls & _ & _ & Ht).
  destruct (Ht t eq_refl) as [Heq _]. by rewrite Heq.
Qed.

(** ** The row index handed to the store call *)

Lemma stores_impl (P Q : DataFrame → Prop) c :
  (∀ t, P t → Q t) → stores P c → stores Q c.
Proof. intros HPQ. destruct c as [| | | | |[]]; simpl; auto. Qed.

Lemma store_run_stores (P : DataFrame → Prop) syn atc table_name
    synapse_project_id inc td h :
  P td →
  ∃ calls,
    (store_run syn atc table_name synapse_project_id inc td h).2 = h ++ calls ∧
    Forall (stores P) calls ∧
    ∀ t, (store_run syn atc table_name synapse_project_id inc td h).1 = Ok t →
         t = td ∧ ∃ schema, last calls = Some (Store (ETable schema t)).
Proof.
  intros HP.
  destruct (store_run syn atc table_name synapse_project_id inc td h)
    as [r h'] eqn:Hrun.
  apply store_run_calls in Hrun as (calls & -> & Hcalls & Hok).
  exists calls. split; [done|]. split.
  - eapply Forall_impl; [exact Hcalls|]. intros c. apply stores_impl.
    by intros t ->.
  - simpl. intros t Ht. destruct (Hok t Ht) as (-> & schema & ->). eauto.
Qed.

Lemma pd_concat_shared union_indexes first rest :
  Forall (λ df, df_index df = df_index first) rest →
  pd_concat_axis1 union_indexes (first :: rest)
  = Ok {| df_index := df_index first;
          df_columns := mjoin (df_columns <$> first :: rest) |}.
Proof.
  intros Hshared. unfold pd_concat_axis1.
  assert (forallb (λ df, bool_decide (df_index df = df_index first)) rest = true)
    as ->; [|done].
  apply forallb_forall. intros df Hin. apply bool_decide_eq_true.
  rewrite Forall_forall in Hshared. by apply Hshared, list_elem_of_In.
Qed.

(** A run that ends before any store. *)
Ltac ends_without_store :=
  simpl; rewrite <- ?app_assoc;
  split; [done|]; split; [by repeat constructor|intros; discriminate].

(** Whatever the service answers, every table [copy_synapse_table] hands
    to the store call has its rows renumbered. *)
Lemma copy_calls syn atc synapse_table_id synapse_project_id table_name
    remove_columns username password h :
  ∃ calls,
    (copy_synapse_table syn atc synapse_table_id synapse_project_id table_name
                        remove_columns username password h).2 = h ++ calls ∧
    Forall (stores clean_index) calls ∧
    ∀ t name project,
      (copy_synapse_table syn atc synapse_table_id synapse_project_id table_name
                          remove_columns username password h).1
      = Ok (t, name, project) →
      clean_index t ∧ ∃ schema, last calls = Some (Store (ETable schema t)).
Proof.
  set (cred := credentials username password).
  destruct (login_reply syn h cred) as [[]|msg] eqn:Hlogin.
  2: { exists [Login cred].
       assert (copy_synapse_table syn atc synapse_table_id synapse_project_id
                 table_name remove_columns username password h
               = (Raise (ClientError msg), h ++ [Login cred])) as ->.
       { unfold copy_synapse_table. rewrite log_in_run. fold cred.
         apply bind_raise. unfold syn_login, invoke. by rewrite Hlogin. }
       ends_without_store. }
  destruct (tableQuery_reply syn (h ++ [Login cred]) (select_all synapse_table_id))
    as [td|msg] eqn:Hquery.
  2: { exists [Login cred; TableQuery (select_all synapse_table_id)].
       assert (copy_synapse_table syn atc synapse_table_id synapse_project_id
                 table_name remove_columns username password h
               = (Raise (ClientError msg),
                  (h ++ [Login cred]) ++ [TableQuery (select_all synapse_table_id)]))
         as ->.
       { unfold copy_synapse_table. rewrite log_in_run. fold cred.
         unfold syn_login.
         erewrite bind_ok by (apply invoke_done, Hlogin).
         apply bind_raise. unfold syn_tableQuery, invoke.
         fold (select_all synapse_table_id). by rewrite Hquery. }
       ends_without_store. }
  rewrite (copy_run _ _ _ _ _ _ _ _ _ td) by done. fold cred.
  destruct (del_columns remove_columns td) as [td1|e].
  2: { exists [Login cred; TableQuery (select_all synapse_table_id)].
       ends_without_store. }
  destruct (store_run_stores clean_index syn atc table_name synapse_project_id
              (Some false) (renumbered td1)
              (h ++ [Login cred; TableQuery (select_all synapse_table_id)])
              (renumbered_clean td1)) as (calls & Hcalls & Hstores & Hok).
  destruct (store_run _ _ _ _ _ _ _) as [[t|e] h'] eqn:Hrun; simpl in *; subst h'.
  - exists ([Login cred; TableQuery (select_all synapse_table_id)] ++ calls).
    rewrite app_assoc. split; [done|]. split.
    + apply Forall_app. split; [by repeat constructor|done].
    + intros t' name project [= <- <- <-].
      destruct (Hok t eq_refl) as (-> & schema & Hlast).
      split; [apply renumbered_clean|]. exists schema.
      by rewrite last_app, Hlast.
  - exists ([Login cred; TableQuery (select_all synapse_table_id)] ++ calls).
    rewrite app_assoc. split; [done|]. split; [|done].
    apply Forall_app. split; [by repeat constructor|done].
Qed.

Lemma write_calls syn atc table_data synapse_project_id table_name username
    password h :
  ∃ calls,
    (write_synapse_table syn atc table_data synapse_project_id table_name
                         username password h).2 = h ++ calls ∧
    Forall (stores clean_index) calls ∧
    ((write_synapse_table syn atc table_data synapse_project_id table_name
                          username password h).1 = Ok () →
     ∃ schema,
       last calls = Some (Store (ETable schema (renumbered table_data)))).
Proof.
  set (cred := credentials username password).
  destruct (login_reply syn h cred) as [[]|msg] eqn:Hlogin.
  2: { exists [Login cred].
       assert (write_synapse_table syn atc table_data synapse_project_id
                 table_name username password h
               = (Raise (ClientError msg), h ++ [Login cred])) as ->.
       { unfold write_synapse_table. rewrite log_in_run. fold cred.
         apply bind_raise. unfold syn_login, invoke. by rewrite Hlogin. }
       ends_without_store. }
  rewrite write_run by done. fold cred.
  destruct (store_run_stores clean_index syn atc table_name synapse_project_id
              (Some false) (renumbered table_data) (h ++ [Login cred])
              (renumbered_clean table_data)) as (calls & Hcalls & Hstores & Hok).
  destruct (store_run _ _ _ _ _ _ _) as [[t|e] h'] eqn:Hrun; simpl in *; subst h';
    exists ([Login cred] ++ calls); rewrite app_assoc;
    (split; [done|]); (split; [apply Forall_app; split;
                                 [by repeat constructor|done]|]); [|done].
  intros _. destruct (Hok t eq_refl) as (-> & schema & Hlast).
  exists schema. by rewrite last_app, Hlast.
Qed.

Lemma concatenate_calls syn atc union_indexes first rest synapse_project_id
    table_name username password h :
  Forall (λ df, df_index df = df_index first) rest →
  ∃ calls,
    (concatenate_tables_to_synapse_table syn atc union_indexes (first :: rest)
       synapse_project_id table_name username password h).2 = h ++ calls ∧
    Forall (stores (λ t, df_index t = df_index first)) calls ∧
    ∀ t project,
      (concatenate_tables_to_synapse_table syn atc union_indexes (first :: rest)
         synapse_project_id table_name username password h).1 = Ok (t, project) →
      df_index t = df_index first ∧
      ∃ schema, last calls = Some (Store (ETable schema t)).
Proof.
  intros Hshared.
  set (cred := credentials username password).
  destruct (login_reply syn h cred) as [[]|msg] eqn:Hlogin.
  2: { exists [Login cred].
       assert (concatenate_tables_to_synapse_table syn atc union_indexes
                 (first :: rest) synapse_project_id table_name username password h
               = (Raise (ClientError msg), h ++ [Login cred])) as ->.
       { unfold concatenate_tables_to_synapse_table. rewrite log_in_run.
         fold cred. apply bind_raise. unfold syn_login, invoke.
         by rewrite Hlogin. }
       ends_without_store. }
  rewrite concatenate_run by done. fold cred.
  rewrite pd_concat_shared by done.
  set (td := {| df_index := df_index first;
                df_columns := mjoin (df_columns <$> first :: rest) |}).
  destruct (store_run_stores (λ t, df_index t = df_index first) syn atc
              table_name synapse_project_id None td (h ++ [Login cred]) eq_refl)
    as (calls & Hcalls & Hstores & Hok).
  destruct (store_run _ _ _ _ _ _ _) as [[t|e] h'] eqn:Hrun; simpl in *; subst h';
    exists ([Login cred] ++ calls); rewrite app_assoc;
    (split; [done|]); (split; [apply Forall_app; split;
                                 [by repeat constructor|done]|]); [|done].
  intros t' project [= <- <-]. destruct (Hok t eq_refl) as (-> & schema & Hlast).
  split; [done|]. exists schema. by rewrite last_app, Hlast.
Qed.

(** C2, as the code has it.  [copy_synapse_table] and
    [write_synapse_table] renumber the rows 0, 1, ..., N-1 before the
    store call: every table they hand to the store has that index, and a
    returning run ends with the store of such a table.
    [concatenate_tables_to_synapse_table] does not renumber: for frames
    that share one index it hands the concatenated table to the store
    with that index, reused as it is. *)
Theorem index_handed_to_store syn atc union_indexes synapse_table_id
    synapse_project_id table_name remove_columns table_data first rest
    username password h :
  Forall (λ df, df_index df = df_index first) rest →
  (∃ calls,
     (copy_synapse_table syn atc synapse_table_id synapse_project_id table_name
                         remove_columns username password h).2 = h ++ calls ∧
     Forall (stores clean_index) calls ∧
     ∀ t name project,
       (copy_synapse_table syn atc synapse_table_id synapse_project_id
                           table_name remove_columns username password h).1
       = Ok (t, name, project) →
       clean_index t ∧ ∃ schema, last calls = Some (Store (ETable schema t))) ∧
  (∃ calls,
     (write_synapse_table syn atc table_data synapse_project_id table_name
                          username password h).2 = h ++ calls ∧
     Forall (stores clean_index) calls ∧
     ((write_synapse_table syn atc table_data synapse_project_id table_name
                           username password h).1 = Ok () →
      ∃ schema,
        last calls = Some (Store (ETable schema (renumbered table_data))))) ∧
  (∃ calls,
     (concatenate_tables_to_synapse_table syn atc union_indexes (first :: rest)
        synapse_project_id table_name username password h).2 = h ++ calls ∧
     Forall (stores (λ t, df_index t = df_index first)) calls ∧
     ∀ t project,
       (concatenate_tables_to_synapse_table syn atc union_indexes (first :: rest)
          synapse_project_id table_name username password h).1
       = Ok (t, project) →
       df_index t = df_index first ∧
       ∃ schema, last calls = Some (Store (ETable schema t))).
Proof.
  intros Hshared. split; [|split].
  - apply copy_calls.
  - apply write_calls.
  - by apply concatenate_calls.
Qed.

Lemma index_handed_to_store_witness :
  (∃ calls,
     (copy_synapse_table Demo.syn Demo.as_table_columns "syn4590865"
        "syn4899451" "Copy" ["recordId"] "" "" []).2 = [] ++ calls ∧
     Forall (stores clean_index) calls ∧
     ∀ t name project,
       (copy_synapse_table Demo.syn Demo.as_table_columns "syn4590865"
          "syn4899451" "Copy" ["recordId"] "" "" []).1
       = Ok (t, name, project) →
       clean_index t ∧ ∃ schema, last calls = Some (Store (ETable schema t))) ∧
  (∃ calls,
     (write_synapse_table Demo.syn Demo.as_table_columns Demo.table
        "syn4899451" "Copy" "" "" []).2 = [] ++ calls ∧
     Forall (stores clean_index) calls ∧
     ((write_synapse_table Demo.syn Demo.as_table_columns Demo.table
         "syn4899451" "Copy" "" "" []).1 = Ok () →
      ∃ schema,
        last calls = Some (Store (ETable schema (renumbered Demo.table))))) ∧
  (∃ calls,
     (concatenate_tables_to_synapse_table Demo.syn Demo.as_table_columns
        Demo.union_indexes [Demo.df1; Demo.df2]
        "syn4899451" "Copy" "" "" []).2 = [] ++ calls ∧
     Forall (stores (λ t, df_index t = df_index Demo.df1)) calls ∧
     ∀ t project,
       (concatenate_tables_to_synapse_table Demo.syn Demo.as_table_columns
          Demo.union_indexes [Demo.df1; Demo.df2]
          "syn4899451" "Copy" "" "" []).1
       = Ok (t, project) →
       df_index t = df_index Demo.df1 ∧
       ∃ schema, last calls = Some (Store (ETable schema t))).
Proof.
  apply (index_handed_to_store Demo.syn Demo.as_table_columns Demo.union_indexes
           "syn4590865" "syn4899451" "Copy" ["recordId"] Demo.table
           Demo.df1 [Demo.df2] "" "" []).
  repeat constructor.
Defined.

(** The claim C2 fails for [concatenate_tables_to_synapse_table]: two
    frames indexed 5, 7 are stored with the index 5, 7, not 0, 1. *)
Lemma concatenate_keeps_index_counterexample :
  ∃ schema t,
    concatenate_tables_to_synapse_table Demo.syn Demo.as_table_columns
      Demo.union_indexes [Demo.df1; Demo.df2]
      "syn4899451" "Test to join tables" "" "" []
    = (Ok (t, "syn4899451"), [Login None; Store (ETable schema t)]) ∧
    df_index t = [LInt 5; LInt 7] ∧
    ¬ clean_index t.
Proof.
  exists (ESchema (new_Schema "Test to join tables"
                     [ {| col_name := "A"; col_columnType := "STRING" |};
                       {| col_name := "B"; col_columnType := "STRING" |};
                       {| col_name := "E"; col_columnType := "STRING" |} ]
                     "syn4899451" None)).
  exists {| df_index := [LInt 5; LInt 7];
            df_columns := df_columns Demo.df1 ++ df_columns Demo.df2 |}.
  split; [vm_compute; reflexivity|]. split; [reflexivity|].
  unfold clean_index. vm_compute. discriminate.
Qed.

(** ** Uploading files as a table *)

Lemma Row_fmap (rows : list (list string)) : Row <$> rows = rows.
Proof. induction rows as [|r rows IH]; [done|]. by rewrite fmap_cons, IH. Qed.

(** The upload loop: one upload per path, in order; the identifier of
    each file handle is appended as a row of its own. *)
Lemma upload_loop_run syn in_files files_handles h :
  uploads_answer syn →
  ∃ ids,
    for_in in_files (upload_file syn) files_handles h
    = (Ok (files_handles ++ ((λ id, [id]) <$> ids)),
       h ++ (ChunkedUploadFile <$> in_files)) ∧
    length ids = length in_files ∧
    ∀ (k : nat) path,
      in_files !! k = Some path →
      ∃ file_handle id,
        chunkedUploadFile_reply syn (h ++ (ChunkedUploadFile <$> take k in_files))
                                path = Done file_handle ∧
        file_handle !! "id" = Some id ∧ ids !! k = Some id.
Proof.
  intros Hup. revert files_handles h.
  induction in_files as [|in_file in_files IH]; intros files_handles h.
  - exists []. simpl. rewrite ret_run, !app_nil_r. by repeat split.
  - destruct (Hup h in_file) as (file_handle & id & Hreply & Hid).
    destruct (IH (files_handles ++ [[id]]) (h ++ [ChunkedUploadFile in_file]))
      as (ids & Hrun & Hlen & Hids).
    exists (id :: ids). split; [|split].
    + simpl for_in. erewrite bind_ok.
      2: { unfold upload_file, syn_chunkedUploadFile.
           erewrite bind_ok by (apply invoke_done, Hreply).
           erewrite bind_ok.
           2: { rewrite lift_run. unfold dict_getitem. by rewrite Hid. }
           apply ret_run. }
      rewrite Hrun. by rewrite fmap_cons, <- !app_assoc.
    + simpl. by rewrite Hlen.
    + intros [|k] path Hk; simpl in Hk.
      * simplify_eq. exists file_handle, id. simpl. by rewrite app_nil_r.
      * destruct (Hids k path Hk) as (fh & id' & Hreply' & Hid' & Hk').
        exists fh, id'. simpl. rewrite <- app_assoc in Hreply'. done.
Qed.

(** C4. With N input paths, [files_to_synapse_table] uploads each path
    in order, stores one schema (one new table) whose single column is a
    FILEHANDLEID column named [column_name], then stores N rows, each
    holding the identifier of the file handle of the path at the same
    position. *)
Theorem files_to_synapse_table_rows syn in_files synapse_project_id table_name
    column_name username password h :
  let cred := credentials username password in
  let new_column_header :=
    {| col_name := column_name; col_columnType := "FILEHANDLEID" |} in
  let new_table :=
    ESchema (new_Schema table_name [new_column_header] synapse_project_id None) in
  login_reply syn h cred = Done () →
  uploads_answer syn →
  stores_answer syn →
  ∃ ids schema,
    files_to_synapse_table syn in_files synapse_project_id table_name
                           column_name username password h
    = (Ok (),
       h ++ [Login cred] ++ (ChunkedUploadFile <$> in_files) ++
         [Store new_table;
          Store (ERowSet [new_column_header] schema ((λ id, [id]) <$> ids))]) ∧
    store_reply syn (h ++ [Login cred] ++ (ChunkedUploadFile <$> in_files))
                new_table = Done schema ∧
    length ids = length in_files ∧
    ∀ (k : nat) path,
      in_files !! k = Some path →
      ∃ file_handle id,
        chunkedUploadFile_reply syn
          (h ++ [Login cred] ++ (ChunkedUploadFile <$> take k in_files)) path
        = Done file_handle ∧
        file_handle !! "id" = Some id ∧ ids !! k = Some id.
Proof.
  intros cred new_column_header new_table Hlogin Hup Hstore.
  destruct (upload_loop_run syn in_files [] (h ++ [Login cred]) Hup)
    as (ids & Hloop & Hlen & Hids).
  destruct (Hstore ((h ++ [Login cred]) ++ (ChunkedUploadFile <$> in_files))
              new_table) as (schema & Hschema).
  destruct (Hstore (((h ++ [Login cred]) ++ (ChunkedUploadFile <$> in_files))
                      ++ [Store new_table])
              (ERowSet [new_column_header] schema ((λ id, [id]) <$> ids)))
    as (stored & Hrows).
  exists ids, schema. split; [|split; [|split]].
  - unfold files_to_synapse_table. rewrite log_in_run. fold cred.
    unfold syn_login, syn_store.
    erewrite bind_ok by (apply invoke_done, Hlogin).
    erewrite bind_ok by exact Hloop.
    cbv zeta. fold new_column_header. fold new_table.
    erewrite bind_ok by (apply invoke_done, Hschema).
    rewrite Row_fmap, app_nil_l.
    erewrite bind_ok by (apply invoke_done, Hrows).
    rewrite ret_run. by rewrite <- !app_assoc.
  - by rewrite app_assoc.
  - done.
  - intros k path Hk.
    destruct (Hids k path Hk) as (fh & id & Hreply & Hid & Hk').
    exists fh, id. by rewrite app_assoc.
Qed.

Lemma demo_uploads_answer : uploads_answer Demo.syn.
Proof.
  intros before path. do 2 eexists. split; [reflexivity|].
  apply lookup_singleton_eq.
Qed.

Lemma demo_stores_answer : stores_answer Demo.syn.
Proof. intros before obj. eexists. reflexivity. Qed.

Lemma files_to_synapse_table_rows_witness :
  ∃ ids schema,
    files_to_synapse_table Demo.syn ["test1.wav"; "test2.wav"] "syn4899451"
      "Test to store files and file handle IDs" "fileID1" "" "" []
    = (Ok (),
       [] ++ [Login None] ++ (ChunkedUploadFile <$> ["test1.wav"; "test2.wav"]) ++
         [Store (ESchema (new_Schema "Test to store files and file handle IDs"
                            [ {| col_name := "fileID1";
                                 col_columnType := "FILEHANDLEID" |} ]
                            "syn4899451" None));
          Store (ERowSet [ {| col_name := "fileID1";
                              col_columnType := "FILEHANDLEID" |} ]
                         schema ((λ id, [id]) <$> ids))]) ∧
    store_reply Demo.syn
      ([] ++ [Login None] ++ (ChunkedUploadFile <$> ["test1.wav"; "test2.wav"]))
      (ESchema (new_Schema "Test to store files and file handle IDs"
                  [ {| col_name := "fileID1"; col_columnType := "FILEHANDLEID" |} ]
                  "syn4899451" None))
    = Done schema ∧
    length ids = length ["test1.wav"; "test2.wav"] ∧
    ∀ (k : nat) path,
      ["test1.wav"; "test2.wav"] !! k = Some path →
      ∃ file_handle id,
        chunkedUploadFile_reply Demo.syn
          ([] ++ [Login None] ++
             (ChunkedUploadFile <$> take k ["test1.wav"; "test2.wav"])) path
        = Done file_handle ∧
        file_handle !! "id" = Some id ∧ ids !! k = Some id.
Proof.
  apply (files_to_synapse_table_rows Demo.syn ["test1.wav"; "test2.wav"]
           "syn4899451" "Test to store files and file handle IDs" "fileID1"
           "" "" []).
  - reflexivity.
  - apply demo_uploads_answer.
  - apply demo_stores_answer.
Defined.

(** ** Concatenating tables *)

Lemma well_formed_concat first rest :
  Forall (λ df, df_index df = df_index first) rest →
  Forall well_formed (first :: rest) →
  well_formed {| df_index := df_index first;
                 df_columns := mjoin (df_columns <$> first :: rest) |}.
Proof.
  intros Hshared Hwf. unfold well_formed. simpl.
  apply Forall_app. split.
  - by apply Forall_cons in Hwf as [? _].
  - apply Forall_cons in Hwf as [_ Hwf].
    induction rest as [|df rest IH]; simpl; [constructor|].
    apply Forall_cons in Hshared as [Hdf Hshared].
    apply Forall_cons in Hwf as [Hwfdf Hwf].
    apply Forall_app. split; [|by apply IH].
    unfold well_formed in Hwfdf. by rewrite Hdf in Hwfdf.
Qed.

(** C5. Two frames with K1 and K2 columns, R rows each and one shared
    row index are concatenated into one table of K1 + K2 columns and R
    rows, the columns of the first followed by those of the second, and
    that table is stored and returned. *)
Theorem concatenate_two_frames syn atc union_indexes df1 df2 (K1 K2 R : Z)
    synapse_project_id table_name username password h :
  shape1 df1 = K1 → shape1 df2 = K2 →
  shape0 df1 = R → shape0 df2 = R →
  df_index df1 = df_index df2 →
  login_reply syn h (credentials username password) = Done () →
  (∀ t, ∃ columns, atc t = Done columns) →
  stores_answer syn →
  ∃ t schema,
    concatenate_tables_to_synapse_table syn atc union_indexes [df1; df2]
      synapse_project_id table_name username password h
    = (Ok (t, synapse_project_id),
       h ++ [Login (credentials username password); Store (ETable schema t)]) ∧
    shape1 t = K1 + K2 ∧ shape0 t = R ∧
    df_columns t = df_columns df1 ++ df_columns df2 ∧
    (well_formed df1 → well_formed df2 → well_formed t).
Proof.
  intros HK1 HK2 HR1 HR2 Hindex Hlogin Hatc Hstore.
  set (t := {| df_index := df_index df1;
               df_columns := mjoin (df_columns <$> [df1; df2]) |}).
  destruct (Hatc t) as (columns & Hcolumns).
  set (schema := ESchema (new_Schema table_name columns synapse_project_id None)).
  destruct (Hstore (h ++ [Login (credentials username password)])
              (ETable schema t)) as (stored & Hstored).
  exists t, schema. split; [|split; [|split; [|split]]].
  - rewrite concatenate_run by done.
    rewrite pd_concat_shared by (by repeat constructor).
    fold t. unfold store_run. rewrite Hcolumns. cbv zeta. fold schema.
    rewrite Hstored. by rewrite <- app_assoc.
  - unfold shape1 in *. simpl. rewrite app_nil_r, length_app. lia.
  - done.
  - simpl. by rewrite app_nil_r.
  - intros Hwf1 Hwf2. apply well_formed_concat; by repeat constructor.
Qed.

Lemma concatenate_two_frames_witness :
  ∃ t schema,
    concatenate_tables_to_synapse_table Demo.syn Demo.as_table_columns
      Demo.union_indexes [Demo.df1; Demo.df2]
      "syn4899451" "Test to join tables" "" "" []
    = (Ok (t, "syn4899451"),
       [] ++ [Login (credentials "" ""); Store (ETable schema t)]) ∧
    shape1 t = 2 + 1 ∧ shape0 t = 2 ∧
    df_columns t = df_columns Demo.df1 ++ df_columns Demo.df2 ∧
    (well_formed Demo.df1 → well_formed Demo.df2 → well_formed t).
Proof.
  apply (concatenate_two_frames Demo.syn Demo.as_table_columns Demo.union_indexes
           Demo.df1 Demo.df2 2 1 2 "syn4899451" "Test to join tables" "" "" []).
  - reflexivity.
  - reflexivity.
  - reflexivity.
  - reflexivity.
  - reflexivity.
  - reflexivity.
  - intros t. eexists. reflexivity.
  - apply demo_stores_answer.
Defined.

(** ** Removing columns *)

Lemma df_delitem_ok_inv td name td' :
  df_delitem td name = Ok td' →
  name ∈ headers td ∧ df_index td' = df_index td ∧
  ∀ x, x ∈ headers td' ↔ x ∈ headers td ∧ x ≠ name.
Proof.
  unfold df_delitem. case_bool_decide as Hin; intros [= <-].
  split; [done|]. split; [done|].
  intros x. unfold headers. simpl. rewrite !list_elem_of_fmap. split.
  - intros (col & -> & Hcol). apply list_elem_of_filter in Hcol as [Hne Hcol].
    split; [by exists col|done].
  - intros [(col & -> & Hcol) Hne]. exists col. split; [done|].
    by apply list_elem_of_filter.
Qed.

(** The removal loop raises nothing but a [KeyError] on one of the names
    to remove. *)
Lemma del_columns_raise_inv remove_columns td e :
  del_columns remove_columns td = Raise e →
  ∃ name, name ∈ remove_columns ∧ e = KeyError (PyStr name).
Proof.
  revert td. induction remove_columns as [|c cs IH]; intros td; simpl; [done|].
  destruct (df_delitem td c) as [td'|e0] eqn:Hdel.
  - intros H. destruct (IH _ H) as (name & Hname & ->).
    exists name. split; [by right|done].
  - intros [= ->]. exists c. split; [by left|].
    unfold df_delitem in Hdel. case_bool_decide; by simplify_eq.
Qed.

(** It completes exactly when the names are columns of the table and no
    name is repeated. *)
Lemma del_columns_ok_inv remove_columns td td' :
  del_columns remove_columns td = Ok td' →
  NoDup remove_columns ∧ (∀ name, name ∈ remove_columns → name ∈ headers td).
Proof.
  revert td. induction remove_columns as [|c cs IH]; intros td; simpl.
  - intros _. split; [constructor|]. intros name Hin. by apply elem_of_nil in Hin.
  - destruct (df_delitem td c) as [td1|e] eqn:Hdel; [|done].
    intros H. apply IH in H as [Hnd Hsub].
    apply df_delitem_ok_inv in Hdel as (Hc & _ & Hheaders).
    split.
    + constructor; [|done]. intros Hin. by apply Hsub, Hheaders in Hin as [_ ?].
    + intros name [->|Hin]%elem_of_cons; [done|].
      by apply Hsub, Hheaders in Hin as [? _].
Qed.

Lemma del_columns_ok remove_columns td :
  NoDup remove_columns →
  (∀ name, name ∈ remove_columns → name ∈ headers td) →
  ∃ td', del_columns remove_columns td = Ok td' ∧
         df_index td' = df_index td ∧
         ∀ x, x ∈ headers td' ↔ x ∈ headers td ∧ x ∉ remove_columns.
Proof.
  revert td. induction remove_columns as [|c cs IH]; intros td Hnd Hsub; simpl.
  - exists td. split; [done|]. split; [done|]. intros x. split; [|by intros [? _]].
    intros Hx. split; [done|]. apply not_elem_of_nil.
  - apply NoDup_cons in Hnd as [Hc Hnd].
    destruct (df_delitem td c) as [td1|e] eqn:Hdel.
    2: { unfold df_delitem in Hdel. rewrite bool_decide_true in Hdel; [done|].
         apply Hsub. by left. }
    apply df_delitem_ok_inv in Hdel as (_ & Hidx & Hheaders).
    destruct (IH td1 Hnd) as (td' & Hrun & Hidx' & Hheaders').
    { intros name Hin. apply Hheaders. split; [apply Hsub; by right|].
      by intros ->. }
    exists td'. split; [done|]. split; [congruence|].
    intros x. rewrite Hheaders', Hheaders, not_elem_of_cons. tauto.
Qed.

(** C8. With nothing to remove, the removal step is the identity:
    [copy_synapse_table] stores and returns a table with exactly the
    columns of the query result, in the same order (only the rows are
    renumbered). *)
Theorem copy_without_removals syn atc synapse_table_id synapse_project_id
    table_name username password h td :
  let cred := credentials username password in
  login_reply syn h cred = Done () →
  tableQuery_reply syn (h ++ [Login cred]) (select_all synapse_table_id) = Done td →
  (∀ t, ∃ columns, atc t = Done columns) →
  stores_answer syn →
  del_columns [] td = Ok td ∧
  ∃ t schema,
    copy_synapse_table syn atc synapse_table_id synapse_project_id table_name
                       [] username password h
    = (Ok (t, table_name, synapse_project_id),
       h ++ [Login cred; TableQuery (select_all synapse_table_id);
             Store (ETable schema t)]) ∧
    df_columns t = df_columns td ∧
    headers t = headers td ∧
    shape0 t = shape0 td.
Proof.
  intros cred Hlogin Hquery Hatc Hstore. split; [done|].
  destruct (Hatc (renumbered td)) as (columns & Hcolumns).
  set (schema := ESchema (new_Schema table_name columns synapse_project_id
                                     (Some false))).
  destruct (Hstore (h ++ [Login cred; TableQuery (select_all synapse_table_id)])
              (ETable schema (renumbered td))) as (stored & Hstored).
  exists (renumbered td), schema. split; [|split; [done|split; [done|]]].
  - rewrite (copy_run _ _ _ _ _ _ _ _ _ td) by done. fold cred. simpl del_columns.
    unfold store_run. rewrite Hcolumns. cbv zeta. fold schema.
    rewrite Hstored. by rewrite <- app_assoc.
  - apply renumbered_shape0.
Qed.

Lemma copy_without_removals_witness :
  del_columns [] Demo.table = Ok Demo.table ∧
  ∃ t schema,
    copy_synapse_table Demo.syn Demo.as_table_columns "syn4590865" "syn4899451"
                       "Copy of syn4590865" [] "" "" []
    = (Ok (t, "Copy of syn4590865", "syn4899451"),
       [] ++ [Login (credentials "" ""); TableQuery (select_all "syn4590865");
              Store (ETable schema t)]) ∧
    df_columns t = df_columns Demo.table ∧
    headers t = headers Demo.table ∧
    shape0 t = shape0 Demo.table.
Proof.
  apply (copy_without_removals Demo.syn Demo.as_table_columns "syn4590865"
           "syn4899451" "Copy of syn4590865" "" "" [] Demo.table).
  - reflexivity.
  - reflexivity.
  - intros t. eexists. reflexivity.
  - apply demo_stores_answer.
Defined.

(** ** A name that is not a column *)

Lemma store_run_raise_inv syn atc table_name synapse_project_id inc td h e h' :
  store_run syn atc table_name synapse_project_id inc td h = (Raise e, h') →
  ∃ msg, e = ClientError msg.
Proof.
  unfold store_run. destruct (atc td); [|intros [= <- _]; eauto].
  simpl. destruct (store_reply _ _ _); intros [= <- _]; eauto.
Qed.

Lemma download_column_missing syn schema td limit out_path column_name files h :
  column_name ∉ headers td →
  download_column syn schema td limit out_path column_name files h
  = (Raise (KeyError (PyStr column_name)), h).
Proof.
  intros Habsent. unfold download_column. apply bind_raise.
  by rewrite lift_run, df_getitem_absent.
Qed.

(** The read reaches the first absent name when the columns before it
    are processed without error; it then ends in a [KeyError] on that
    name. *)
Lemma read_missing_column syn synapse_table_id before column_name after
    download_limit out_path username password h schema td files h1 :
  query_answers syn h username password synapse_table_id schema td →
  column_name ∉ headers td →
  for_in before
         (download_column syn schema td
                          (PyInt (rows_to_resolve download_limit td)) out_path)
         []
         (h ++ [Login (credentials username password); Get synapse_table_id;
                TableQuery (select_all synapse_table_id)])
    = (Ok files, h1) →
  read_synapse_table_files syn synapse_table_id (before ++ column_name :: after)
                           download_limit out_path username password h
  = (Raise (KeyError (PyStr column_name)), h1).
Proof.
  intros (Hlogin & Hget & Hquery) Habsent Hbefore.
  unfold read_synapse_table_files. rewrite log_in_run. client_calls.
  erewrite bind_ok by (apply invoke_done, Hlogin).
  erewrite bind_ok by (apply invoke_done, Hget).
  erewrite bind_ok.
  2: { apply invoke_done. rewrite <- app_assoc. exact Hquery. }
  rewrite <- !app_assoc. simpl app.
  assert ((if bool_decide (type download_limit ≠ int_t)
           then PyInt (shape0 td) else download_limit)
          = PyInt (rows_to_resolve download_limit td)) as ->
    by (by destruct download_limit).
  assert (∀ h0,
            for_in (before ++ column_name :: after)
                   (download_column syn schema td
                      (PyInt (rows_to_resolve download_limit td)) out_path)
                   [] h0
            = (Raise (KeyError (PyStr column_name)), h1) →
            match before ++ column_name :: after with
            | [] => mret (td, [])
            | _ :: _ =>
                downloaded_files ←
                  for_in (before ++ column_name :: after)
                         (download_column syn schema td
                            (PyInt (rows_to_resolve download_limit td)) out_path)
                         [];
                mret (td, downloaded_files)
            end h0 = (Raise (KeyError (PyStr column_name)), h1)) as Hmatch.
  { intros h0 Hloop. destruct (before ++ column_name :: after) eqn:E.
    - by destruct before.
    - by apply bind_raise. }
  apply Hmatch. rewrite for_in_app.
  erewrite bind_ok by exact Hbefore.
  simpl for_in. apply bind_raise. by apply download_column_missing.
Qed.

(** C6, as the code has it.  [read_synapse_table_files] ends in a
    [KeyError] on the first name of [column_names] that is not a column
    of the table, provided the columns before it are processed without
    error.  [copy_synapse_table] ends in a [KeyError] on a name of
    [remove_columns] when a name is not a column of the table or occurs
    twice.  When every name is a column, no column lookup of the read
    raises; when moreover no name to remove is repeated, the removal
    completes and a failing copy fails inside the client, not with a
    [KeyError]. *)
Theorem missing_column_key_error syn atc synapse_table_id synapse_project_id
    table_name column_names download_limit out_path remove_columns
    username password h schema td :
  let cred := credentials username password in
  query_answers syn h username password synapse_table_id schema td →
  tableQuery_reply syn (h ++ [Login cred]) (select_all synapse_table_id) = Done td →
  (∀ before column_name after files h1,
     column_names = before ++ column_name :: after →
     column_name ∉ headers td →
     for_in before
            (download_column syn schema td
                             (PyInt (rows_to_resolve download_limit td)) out_path)
            []
            (h ++ [Login cred; Get synapse_table_id;
                   TableQuery (select_all synapse_table_id)])
       = (Ok files, h1) →
     read_synapse_table_files syn synapse_table_id column_names download_limit
                              out_path username password h
     = (Raise (KeyError (PyStr column_name)), h1)) ∧
  (¬ (NoDup remove_columns ∧
      ∀ name, name ∈ remove_columns → name ∈ headers td) →
   ∃ name,
     name ∈ remove_columns ∧
     copy_synapse_table syn atc synapse_table_id synapse_project_id table_name
                        remove_columns username password h
     = (Raise (KeyError (PyStr name)),
        h ++ [Login cred; TableQuery (select_all synapse_table_id)])) ∧
  ((∀ name, name ∈ column_names → name ∈ headers td) →
   ∀ name, name ∈ column_names → ∃ column_data, df_getitem td name = Ok column_data) ∧
  (NoDup remove_columns →
   (∀ name, name ∈ remove_columns → name ∈ headers td) →
   (∃ td', del_columns remove_columns td = Ok td') ∧
   ∀ e h',
     copy_synapse_table syn atc synapse_table_id synapse_project_id table_name
                        remove_columns username password h
     = (Raise e, h') →
     ∃ msg, e = ClientError msg).
Proof.
  intros cred Hq Hquery. pose proof Hq as (Hlogin & _ & _).
  split; [|split; [|split]].
  - intros before column_name after files h1 -> Habsent Hbefore.
    by eapply read_missing_column.
  - intros Hnot. rewrite (copy_run _ _ _ _ _ _ _ _ _ td) by done. fold cred.
    destruct (del_columns remove_columns td) as [td1|e] eqn:Hdel.
    + by apply del_columns_ok_inv in Hdel.
    + apply del_columns_raise_inv in Hdel as (name & Hname & ->). eauto.
  - intros Hall name Hname.
    destruct (df_getitem td name) as [sel|e] eqn:Hsel; [eauto|].
    apply df_getitem_raise_inv in Hsel as [Habsent _].
    by apply Hall in Hname.
  - intros Hnd Hall.
    destruct (del_columns_ok remove_columns td Hnd Hall) as (td1 & Hdel & _).
    split; [eauto|].
    intros e h'. rewrite (copy_run _ _ _ _ _ _ _ _ _ td) by done. fold cred.
    rewrite Hdel.
    destruct (store_run _ _ _ _ _ _ _) as [[t|e0] h2] eqn:Hstore; [done|].
    intros [= <- <-]. by eapply store_run_raise_inv.
Qed.

Lemma missing_column_key_error_witness :
  (∃ h1,
     read_synapse_table_files Demo.syn "syn4590865" ["audio_audio.m4a"; "fileID"]
                              PyNone "out" "" "" []
     = (Raise (KeyError (PyStr "fileID")), h1)) ∧
  (∃ name,
     name ∈ ["recordId"; "fileID"] ∧
     copy_synapse_table Demo.syn Demo.as_table_columns "syn4590865" "syn4899451"
                        "Copy" ["recordId"; "fileID"] "" "" []
     = (Raise (KeyError (PyStr name)),
        [Login None; TableQuery (select_all "syn4590865")])).
Proof.
  destruct (missing_column_key_error Demo.syn Demo.as_table_columns
              "syn4590865" "syn4899451" "Copy" ["audio_audio.m4a"; "fileID"]
              PyNone "out" ["recordId"; "fileID"] "" "" []
              (Demo.schema "syn4590865") Demo.table
              (demo_query_answers [] "" "" "syn4590865") eq_refl)
    as (Hread & Hcopy & _ & _).
  split.
  - eexists. eapply (Hread ["audio_audio.m4a"] "fileID" []); [reflexivity| |].
    + apply (bool_decide_unpack _). vm_compute. exact I.
    + vm_compute. reflexivity.
  - apply Hcopy. intros [_ Hall].
    assert ("fileID" ∈ headers Demo.table) as Hin by (apply Hall; right; left).
    revert Hin. apply (bool_decide_unpack _). vm_compute. exact I.
Defined.

(** The claim C6 fails on two inputs.  Every name of
    ["recordId"; "recordId"] is a column of the table, yet the copy ends
    in a [KeyError]: the second [del] finds the column gone.  And with a
    limit of 4 on a table of 3 rows, the read of
    ["audio_audio.m4a"; "fileID"] ends in an [IndexError] on the first
    column, before the absent name is looked up. *)
Lemma key_error_counterexample :
  ((∀ name, name ∈ ["recordId"; "recordId"] → name ∈ headers Demo.table) ∧
   copy_synapse_table Demo.syn Demo.as_table_columns "syn4590865" "syn4899451"
                      "Copy" ["recordId"; "recordId"] "" "" []
   = (Raise (KeyError (PyStr "recordId")),
      [Login None; TableQuery (select_all "syn4590865")])) ∧
  (("fileID" ∉ headers Demo.table) ∧
   ∃ h',
     read_synapse_table_files Demo.syn "syn4590865" ["audio_audio.m4a"; "fileID"]
                              (PyInt 4) "out" "" "" []
     = (Raise IndexError, h')).
Proof.
  split; split.
  - intros name Hin.
    repeat (apply elem_of_cons in Hin as [->|Hin]);
      [| |by apply elem_of_nil in Hin];
      apply (bool_decide_unpack _); vm_compute; exact I.
  - vm_compute. reflexivity.
  - apply (bool_decide_unpack _). vm_compute. exact I.
  - eexists. vm_compute. reflexivity.
Qed.

(** * Further properties of the module *)

(** ** Logging in *)

Lemma credentials_some username password :
  credentials username password = Some (username, password)
  ↔ username ≠ "" ∧ password ≠ "".
Proof.
  unfold credentials. destruct username, password; simpl; split; intros H;
    first [discriminate | by destruct H | done | by split].
Qed.

Lemma login_refused {A} syn username password (k : () → M A) h msg :
  login_reply syn h (credentials username password) = Failed msg →
  (log_in syn username password ≫= k) h
  = (Raise (ClientError msg), h ++ [Login (credentials username password)]).
Proof.
  intros Hlogin. apply bind_raise. rewrite log_in_run.
  unfold syn_login, invoke. by rewrite Hlogin.
Qed.

(** X1. Each of the five functions logs in first, with the username and
    password when both are non-empty and without credentials otherwise.
    When the login is refused the function raises the client's error and
    that login is the only call it has made. *)
Theorem login_failure_aborts syn atc union_indexes synapse_table_id
    synapse_project_id table_name column_name column_names download_limit
    out_path remove_columns table_data in_files frames username password h msg :
  let cred := credentials username password in
  login_reply syn h cred = Failed msg →
  (cred = Some (username, password) ↔ username ≠ "" ∧ password ≠ "") ∧
  (cred = None ↔ ¬ (username ≠ "" ∧ password ≠ "")) ∧
  read_synapse_table_files syn synapse_table_id column_names download_limit
                           out_path username password h
  = (Raise (ClientError msg), h ++ [Login cred]) ∧
  copy_synapse_table syn atc synapse_table_id synapse_project_id table_name
                     remove_columns username password h
  = (Raise (ClientError msg), h ++ [Login cred]) ∧
  write_synapse_table syn atc table_data synapse_project_id table_name
                      username password h
  = (Raise (ClientError msg), h ++ [Login cred]) ∧
  files_to_synapse_table syn in_files synapse_project_id table_name column_name
                         username password h
  = (Raise (ClientError msg), h ++ [Login cred]) ∧
  concatenate_tables_to_synapse_table syn atc union_indexes frames
                                      synapse_project_id table_name
                                      username password h
  = (Raise (ClientError msg), h ++ [Login cred]).
Proof.
  intros cred Hlogin.
  split; [apply credentials_some|]. split.
  { unfold cred. rewrite <- credentials_some. unfold credentials.
    destruct (str_truthy username && str_truthy password); split; try done.
    }
  unfold read_synapse_table_files, copy_synapse_table, write_synapse_table,
    files_to_synapse_table, concatenate_tables_to_synapse_table.
  repeat split; by apply login_refused.
Qed.

Lemma login_failure_aborts_witness :
  read_synapse_table_files Faulty.no_login "syn4590865" ["audio_audio.m4a"]
                           PyNone "out" "user" "" []
  = (Raise (ClientError "401 Unauthorized"), [Login None]) ∧
  files_to_synapse_table Faulty.no_login ["test1.wav"] "syn4899451" "T" "fileID"
                         "user" "secret" []
  = (Raise (ClientError "401 Unauthorized"), [Login (Some ("user", "secret"))]).
Proof.
  split.
  - apply (login_failure_aborts Faulty.no_login Demo.as_table_columns
             Demo.union_indexes "syn4590865" "syn4899451" "T" "fileID"
             ["audio_audio.m4a"] PyNone "out" [] Demo.table [] []
             "user" "" [] "401 Unauthorized" eq_refl).
  - apply (login_failure_aborts Faulty.no_login Demo.as_table_columns
             Demo.union_indexes "syn4590865" "syn4899451" "T" "fileID"
             [] PyNone "out" [] Demo.table ["test1.wav"] []
             "user" "secret" [] "401 Unauthorized" eq_refl).
Defined.

(** ** The calls of a read *)

Lemma effective_limit_range_value download_limit td :
  (if bool_decide (type download_limit ≠ int_t)
   then PyInt (shape0 td) else download_limit)
  = PyInt (rows_to_resolve download_limit td).
Proof. by destruct download_limit. Qed.

Lemma download_row_history syn schema td out_path column_name sel irow acc h :
  df_getitem td column_name = Ok sel →
  (download_row syn schema column_name out_path sel irow acc h).2
  = h ++ row_downloads schema out_path td column_name irow.
Proof.
  intros Hsel. unfold download_row, row_downloads, cell_at. rewrite Hsel.
  rewrite bind_run, lift_run.
  destruct (selection_getitem sel irow) as [[[|n|s]|parent ps]|e]; simpl;
    rewrite ?app_nil_r; try done.
  - rewrite bind_run, lift_run. cbv beta iota. rewrite bind_run.
    unfold syn_downloadTableFile, invoke.
    destruct (downloadTableFile_reply syn h schema irow 0 column_name out_path)
      as [fileinfo|msg]; [|done].
    destruct (dict_truthy fileinfo); [|done].
    rewrite bind_run, lift_run. by destruct (fileinfo_getitem fileinfo "path").
  - by destruct (object_dtype parent).
Qed.

Lemma download_rows_history syn schema td out_path column_name sel irows acc h r h' :
  df_getitem td column_name = Ok sel →
  for_in irows (download_row syn schema column_name out_path sel) acc h = (r, h') →
  ∃ calls,
    h' = h ++ calls ∧
    calls `prefix_of` mjoin (row_downloads schema out_path td column_name <$> irows) ∧
    ∀ fs, r = Ok fs →
          calls = mjoin (row_downloads schema out_path td column_name <$> irows).
Proof.
  intros Hsel. revert acc h.
  induction irows as [|irow irows IH]; intros acc h; simpl.
  - rewrite ret_run. intros [= <- <-]. exists []. by rewrite app_nil_r.
  - rewrite bind_run.
    pose proof (download_row_history syn schema td out_path column_name sel
                  irow acc h Hsel) as Hrow.
    destruct (download_row _ _ _ _ _ _ _ _) as [[acc1|e] h1]; simpl in Hrow;
      subst h1.
    + intros H. apply IH in H as (calls & -> & Hpre & Hok).
      exists (row_downloads schema out_path td column_name irow ++ calls).
      split; [by rewrite app_assoc|]. split; [by apply prefix_app|].
      intros fs Hr. by rewrite (Hok fs Hr).
    + intros [= <- <-].
      exists (row_downloads schema out_path td column_name irow).
      split; [done|]. split; [by apply prefix_app_r|]. done.
Qed.

Lemma download_column_history syn schema td n out_path column_name files h r h' :
  download_column syn schema td (PyInt n) out_path column_name files h = (r, h') →
  ∃ calls,
    h' = h ++ calls ∧
    calls `prefix_of` column_downloads schema out_path td n column_name ∧
    ∀ files', r = Ok files' →
              calls = column_downloads schema out_path td n column_name.
Proof.
  unfold download_column. rewrite bind_run, lift_run.
  destruct (df_getitem td column_name) as [sel|e] eqn:Hsel.
  2: { intros [= <- <-]. exists []. rewrite app_nil_r.
       split; [done|]. split; [apply prefix_nil|done]. }
  rewrite bind_run, lift_run. simpl py_range. cbv beta iota.
  rewrite bind_run.
  destruct (for_in _ _ _ _) as [[fs|e] h1] eqn:Hrows;
    apply (download_rows_history _ _ td) in Hrows as (calls & -> & Hpre & Hok);
    try done.
  - rewrite ret_run. intros [= <- <-]. exists calls.
    split; [done|]. split; [done|]. intros _ _. by apply (Hok fs).
  - intros [= <- <-]. exists calls. split; [done|]. split; [done|done].
Qed.

Lemma download_columns_history syn schema td n out_path column_names files h r h' :
  for_in column_names (download_column syn schema td (PyInt n) out_path) files h
    = (r, h') →
  ∃ calls,
    h' = h ++ calls ∧
    calls `prefix_of` expected_downloads schema out_path td n column_names ∧
    ∀ files', r = Ok files' →
              calls = expected_downloads schema out_path td n column_names.
Proof.
  revert files h. induction column_names as [|c cs IH]; intros files h; simpl.
  - rewrite ret_run. intros [= <- <-]. exists []. by rewrite app_nil_r.
  - rewrite bind_run.
    destruct (download_column _ _ _ _ _ _ _ _) as [[files1|e] h1] eqn:Hcol;
      apply download_column_history in Hcol as (calls1 & -> & Hpre1 & Hok1).
    + intros H. apply IH in H as (calls & -> & Hpre & Hok).
      rewrite (Hok1 files1 eq_refl).
      exists (column_downloads schema out_path td n c ++ calls).
      split; [by rewrite app_assoc|].
      split; [by apply prefix_app|].
      intros files' Hr. unfold expected_downloads. simpl.
      by rewrite (Hok files' Hr).
    + intros [= <- <-]. exists calls1. split; [done|].
      split; [|done]. unfold expected_downloads. simpl.
      by apply prefix_app_r.
Qed.

Lemma expected_downloads_are_downloads schema out_path td n column_names :
  Forall (λ c, is_download c = true)
         (expected_downloads schema out_path td n column_names).
Proof.
  unfold expected_downloads, column_downloads.
  apply Forall_forall. intros c Hc.
  apply list_elem_of_join in Hc as (l & Hc & Hl).
  apply list_elem_of_fmap in Hl as (column_name & -> & _).
  apply list_elem_of_join in Hc as (l & Hc & Hl).
  apply list_elem_of_fmap in Hl as (irow & -> & _).
  unfold row_downloads in Hc.
  destruct (cell_at td column_name irow) as [[[| |]|]|];
    try (by apply elem_of_nil in Hc).
  apply list_elem_of_singleton in Hc. by subst c.
Qed.

Lemma prefix_Forall {A} (P : A → Prop) (l1 l2 : list A) :
  l1 `prefix_of` l2 → Forall P l2 → Forall P l1.
Proof. intros [k ->] H. by apply Forall_app in H as [? _]. Qed.

(** X2. A read that returns has made exactly these calls: the login, the
    schema lookup, the query, and then, column by column and row by row,
    one [downloadTableFile] for each cell that holds a file identifier,
    with the loop index as [rowId], version 0 and [out_path] as
    location.  No download is made for a missing cell. *)
Theorem read_downloads_present_cells syn synapse_table_id column_names
    download_limit out_path username password h td files h' :
  read_synapse_table_files syn synapse_table_id column_names download_limit
                           out_path username password h = (Ok (td, files), h') →
  ∃ schema,
    get_reply syn (h ++ [Login (credentials username password)]) synapse_table_id
      = Done schema ∧
    h' = h ++ [Login (credentials username password); Get synapse_table_id;
               TableQuery (select_all synapse_table_id)]
           ++ expected_downloads schema out_path td
                (rows_to_resolve download_limit td) column_names.
Proof.
  intros H. unfold read_synapse_table_files in H. rewrite log_in_run in H.
  client_calls.
  apply bind_ok_inv in H as ([] & h1 & Hlogin & H).
  apply invoke_ok_inv in Hlogin as [Hlogin ->].
  apply bind_ok_inv in H as (schema & h2 & Hget & H).
  apply invoke_ok_inv in Hget as [Hget ->].
  apply bind_ok_inv in H as (table_data & h3 & Hquery & H).
  apply invoke_ok_inv in Hquery as [Hquery ->].
  exists schema. split; [done|].
  destruct column_names as [|c cs].
  - rewrite ret_run in H. simplify_eq. by rewrite <- !app_assoc.
  - apply bind_ok_inv in H as (files1 & h4 & Hloop & H).
    rewrite ret_run in H. simplify_eq.
    rewrite effective_limit_range_value in Hloop.
    apply download_columns_history in Hloop as (calls & -> & _ & Hok).
    rewrite (Hok files eq_refl). by rewrite <- !app_assoc.
Qed.

Lemma read_downloads_present_cells_witness :
  ∃ schema,
    get_reply Demo.syn ([] ++ [Login (credentials "" "")]) "syn4590865"
      = Done schema ∧
    [Login None; Get "syn4590865"; TableQuery "select * from syn4590865";
     DownloadTableFile (Demo.schema "syn4590865") 0 0 "audio_audio.m4a" "out";
     DownloadTableFile (Demo.schema "syn4590865") 2 0 "audio_audio.m4a" "out";
     DownloadTableFile (Demo.schema "syn4590865") 0 0 "audio_countdown.m4a" "out";
     DownloadTableFile (Demo.schema "syn4590865") 1 0 "audio_countdown.m4a" "out"]
    = [] ++ [Login (credentials "" ""); Get "syn4590865";
             TableQuery (select_all "syn4590865")]
         ++ expected_downloads schema "out" Demo.table
              (rows_to_resolve PyNone Demo.table)
              ["audio_audio.m4a"; "audio_countdown.m4a"].
Proof.
  exact (read_downloads_present_cells Demo.syn "syn4590865"
           ["audio_audio.m4a"; "audio_countdown.m4a"] PyNone "out" "" "" []
           _ _ _ read_demo).
Defined.

(** X3. However a read ends, by returning or by an error at any step, it
    has written nothing to the service: none of its calls is a store or
    an upload. *)
Theorem read_never_writes syn synapse_table_id column_names download_limit
    out_path username password h :
  ∃ calls,
    (read_synapse_table_files syn synapse_table_id column_names download_limit
                              out_path username password h).2 = h ++ calls ∧
    Forall (λ c, is_write c = false) calls.
Proof.
  set (cred := credentials username password).
  unfold read_synapse_table_files. rewrite log_in_run. fold cred. client_calls.
  rewrite bind_run.
  destruct (invoke (Login cred) _ h) as [[[]|e] h1] eqn:E1;
    apply invoke_extends in E1 as ->.
  2: { exists [Login cred]. split; [done|]. by repeat constructor. }
  rewrite bind_run.
  destruct (invoke (Get _) _ _) as [[schema|e] h2] eqn:E2;
    apply invoke_extends in E2 as ->.
  2: { exists [Login cred; Get synapse_table_id]. rewrite <- app_assoc.
       split; [done|]. by repeat constructor. }
  rewrite bind_run.
  destruct (invoke (TableQuery _) _ _) as [[td|e] h3] eqn:E3;
    apply invoke_extends in E3 as ->.
  2: { exists [Login cred; Get synapse_table_id;
               TableQuery ("select * from " +:+ synapse_table_id)].
       rewrite <- !app_assoc. split; [done|]. by repeat constructor. }
  destruct column_names as [|c cs].
  { exists [Login cred; Get synapse_table_id;
            TableQuery ("select * from " +:+ synapse_table_id)].
    rewrite ret_run, <- !app_assoc. split; [done|]. by repeat constructor. }
  rewrite effective_limit_range_value, bind_run.
  destruct (for_in _ _ _ _) as [r h4] eqn:Hloop.
  apply download_columns_history in Hloop as (calls & -> & Hpre & _).
  exists ([Login cred; Get synapse_table_id;
           TableQuery ("select * from " +:+ synapse_table_id)] ++ calls).
  split.
  - destruct r; rewrite ?ret_run; simpl; by rewrite <- !app_assoc.
  - apply Forall_app. split; [by repeat constructor|].
    eapply Forall_impl.
    + eapply prefix_Forall; [exact Hpre|].
      apply expected_downloads_are_downloads.
    + intros call Hd. by destruct call.
Qed.

(** ** Nothing to resolve *)

Lemma range_nonpositive n : n ≤ 0 → range n = [].
Proof. intros Hn. unfold range. by replace (Z.to_nat n) with 0%nat by lia. Qed.

Lemma download_columns_nothing syn schema td n out_path column_names files h :
  n ≤ 0 →
  (∀ name, name ∈ column_names → name ∈ headers td) →
  for_in column_names (download_column syn schema td (PyInt n) out_path) files h
  = (Ok (files ++ replicate (length column_names) []), h).
Proof.
  intros Hn. revert files.
  induction column_names as [|c cs IH]; intros files Hall; simpl.
  - by rewrite ret_run, app_nil_r.
  - destruct (df_getitem td c) as [sel|e] eqn:Hsel.
    2: { apply df_getitem_raise_inv in Hsel as [Habsent _].
         exfalso. apply Habsent, Hall. by left. }
    erewrite bind_ok.
    2: { unfold download_column.
         erewrite bind_ok by (rewrite lift_run; by rewrite Hsel).
         erewrite bind_ok by (rewrite lift_run; reflexivity).
         rewrite range_nonpositive by done. simpl for_in.
         erewrite bind_ok by apply ret_run. apply ret_run. }
    rewrite IH by (intros name Hin; apply Hall; by right).
    by rewrite <- app_assoc.
Qed.

(** X4. When there is no row to resolve (a limit of 0 or below, or a
    table without rows and no integer limit), a read of columns that
    exist returns one empty sequence per requested column and makes no
    download.  No cell is read, so the columns may hold anything. *)
Theorem read_nothing_to_resolve syn synapse_table_id column_names download_limit
    out_path username password h schema td :
  query_answers syn h username password synapse_table_id schema td →
  rows_to_resolve download_limit td ≤ 0 →
  (∀ name, name ∈ column_names → name ∈ headers td) →
  read_synapse_table_files syn synapse_table_id column_names download_limit
                           out_path username password h
  = (Ok (td, replicate (length column_names) []),
     h ++ [Login (credentials username password); Get synapse_table_id;
           TableQuery (select_all synapse_table_id)]).
Proof.
  intros (Hlogin & Hget & Hquery) Hn Hall.
  unfold read_synapse_table_files. rewrite log_in_run. client_calls.
  erewrite bind_ok by (apply invoke_done, Hlogin).
  erewrite bind_ok by (apply invoke_done, Hget).
  erewrite bind_ok.
  2: { apply invoke_done. rewrite <- app_assoc. exact Hquery. }
  rewrite <- !app_assoc. simpl app.
  destruct column_names as [|c cs]; [done|].
  rewrite effective_limit_range_value.
  erewrite bind_ok by (by apply download_columns_nothing).
  by rewrite ret_run.
Qed.

Lemma read_nothing_to_resolve_witness :
  read_synapse_table_files Demo.syn "syn4590865" ["recordId"; "audio_audio.m4a"]
                           (PyInt 0) "out" "" "" []
  = (Ok (Demo.table, replicate (length ["recordId"; "audio_audio.m4a"]) []),
     [] ++ [Login (credentials "" ""); Get "syn4590865";
            TableQuery (select_all "syn4590865")]).
Proof.
  apply (read_nothing_to_resolve Demo.syn "syn4590865"
           ["recordId"; "audio_audio.m4a"] (PyInt 0) "out" "" "" []
           (Demo.schema "syn4590865") Demo.table).
  - apply demo_query_answers.
  - reflexivity.
  - intros name Hin.
    repeat (apply elem_of_cons in Hin as [->|Hin]);
      [| |by apply elem_of_nil in Hin];
      apply (bool_decide_unpack _); vm_compute; exact I.
Defined.

(** ** What a returning read has read *)

(** X5. A read returns only if every cell it had to resolve, in each
    requested column and each row below the limit, was reached within
    the rows and holds a file identifier or the missing marker: a string
    cell or an index past the rows makes the call fail instead. *)
Theorem read_returns_on_file_cells syn synapse_table_id column_names
    download_limit out_path username password h td files h' :
  read_synapse_table_files syn synapse_table_id column_names download_limit
                           out_path username password h = (Ok (td, files), h') →
  ∀ column_name irow,
    column_name ∈ column_names →
    0 ≤ irow < rows_to_resolve download_limit td →
    ∃ c, cell_at td column_name irow = Ok (Scalar c) ∧ is_Str c = false.
Proof.
  intros Hrun column_name irow Hc Hirow.
  apply read_ok_inv in Hrun as (schema & _ & Hfiles).
  apply list_elem_of_lookup in Hc as [k Hk].
  destruct (Forall2_lookup_l _ _ _ _ _ Hfiles Hk) as (fs & _ & Hrows).
  assert (range (rows_to_resolve download_limit td) !! Z.to_nat irow = Some irow)
    as Hr.
  { rewrite range_lookup by lia. f_equal. lia. }
  destruct (Forall2_lookup_l _ _ _ _ _ Hrows Hr) as (entry & _ & c & Hcell & Hres).
  exists c. split; [done|]. by destruct c.
Qed.

Lemma read_returns_on_file_cells_witness :
  ∃ c, cell_at Demo.table "audio_countdown.m4a" 2 = Ok (Scalar c) ∧
       is_Str c = false.
Proof.
  apply (read_returns_on_file_cells Demo.syn "syn4590865"
           ["audio_audio.m4a"; "audio_countdown.m4a"] PyNone "out" "" "" []
           _ _ _ read_demo).
  - right. left.
  - vm_compute. split; [discriminate|reflexivity].
Defined.

(** ** An error while resolving a row *)

Lemma range_split_at n irow :
  0 ≤ irow < n → ∃ rest, range n = range irow ++ irow :: rest.
Proof.
  intros Hirow.
  destruct (range_split n (Z.to_nat irow)) as (rest & Hrange); [lia|].
  rewrite Z2Nat.id in Hrange by lia. eauto.
Qed.

(** An error at one row ends the read with that error, at the calls made
    so far: the columns before and the rows before are not undone. *)
Lemma read_aborts_at_row syn synapse_table_id before column_name after
    download_limit out_path username password h schema td files h1 sel irow
    fs h2 e h' :
  query_answers syn h username password synapse_table_id schema td →
  for_in before
         (download_column syn schema td
                          (PyInt (rows_to_resolve download_limit td)) out_path)
         []
         (h ++ [Login (credentials username password); Get synapse_table_id;
                TableQuery (select_all synapse_table_id)])
    = (Ok files, h1) →
  df_getitem td column_name = Ok sel →
  0 ≤ irow < rows_to_resolve download_limit td →
  for_in (range irow) (download_row syn schema column_name out_path sel) [] h1
    = (Ok fs, h2) →
  download_row syn schema column_name out_path sel irow fs h2 = (Raise e, h') →
  read_synapse_table_files syn synapse_table_id (before ++ column_name :: after)
                           download_limit out_path username password h
  = (Raise e, h') ∧
  h2 = h ++ [Login (credentials username password); Get synapse_table_id;
             TableQuery (select_all synapse_table_id)]
         ++ expected_downloads schema out_path td
              (rows_to_resolve download_limit td) before
         ++ column_downloads schema out_path td irow column_name.
Proof.
  intros (Hlogin & Hget & Hquery) Hbefore Hsel Hirow Hrows Hrow.
  split.
  - unfold read_synapse_table_files. rewrite log_in_run. client_calls.
    erewrite bind_ok by (apply invoke_done, Hlogin).
    erewrite bind_ok by (apply invoke_done, Hget).
    erewrite bind_ok.
    2: { apply invoke_done. rewrite <- app_assoc. exact Hquery. }
    rewrite <- !app_assoc. simpl app. rewrite effective_limit_range_value.
    assert (∀ (m : M (list (list (option string)))) h0,
              m h0 = (Raise e, h') →
              match before ++ column_name :: after with
              | [] => mret (td, [])
              | _ :: _ => downloaded_files ← m; mret (td, downloaded_files)
              end h0 = (Raise e, h')) as Hmatch.
    { intros m h0 Hm. destruct (before ++ column_name :: after) eqn:E.
      - by destruct before.
      - by apply bind_raise. }
    apply Hmatch. rewrite for_in_app.
    erewrite bind_ok by exact Hbefore.
    simpl for_in. apply bind_raise. unfold download_column.
    erewrite bind_ok by (rewrite lift_run; by rewrite Hsel).
    erewrite bind_ok by (rewrite lift_run; reflexivity).
    apply bind_raise.
    destruct (range_split_at _ _ Hirow) as (rest & ->).
    rewrite for_in_app. erewrite bind_ok by exact Hrows.
    simpl for_in. by apply bind_raise.
  - apply download_columns_history in Hbefore as (calls1 & -> & _ & Hok1).
    apply (download_rows_history _ _ td) in Hrows as (calls2 & -> & _ & Hok2);
      [|done].
    rewrite (Hok1 files eq_refl), (Hok2 fs eq_refl).
    by rewrite <- !app_assoc.
Qed.

(** X6. When a download fails, the read raises the client's error at
    once.  The calls made before it stay made: the downloads of the
    columns and rows already resolved are not undone, and nothing is
    returned. *)
Theorem read_download_failure_aborts syn synapse_table_id before column_name
    after download_limit out_path username password h schema td files h1 sel
    irow fs h2 x msg :
  query_answers syn h username password synapse_table_id schema td →
  for_in before
         (download_column syn schema td
                          (PyInt (rows_to_resolve download_limit td)) out_path)
         []
         (h ++ [Login (credentials username password); Get synapse_table_id;
                TableQuery (select_all synapse_table_id)])
    = (Ok files, h1) →
  df_getitem td column_name = Ok sel →
  0 ≤ irow < rows_to_resolve download_limit td →
  for_in (range irow) (download_row syn schema column_name out_path sel) [] h1
    = (Ok fs, h2) →
  selection_getitem sel irow = Ok (Scalar (Num x)) →
  downloadTableFile_reply syn h2 schema irow 0 column_name out_path = Failed msg →
  read_synapse_table_files syn synapse_table_id (before ++ column_name :: after)
                           download_limit out_path username password h
  = (Raise (ClientError msg),
     h ++ [Login (credentials username password); Get synapse_table_id;
           TableQuery (select_all synapse_table_id)]
       ++ expected_downloads schema out_path td
            (rows_to_resolve download_limit td) before
       ++ column_downloads schema out_path td irow column_name
       ++ [DownloadTableFile schema irow 0 column_name out_path]).
Proof.
  intros Hq Hbefore Hsel Hirow Hrows Hcell Hreply.
  destruct (read_aborts_at_row syn synapse_table_id before column_name after
              download_limit out_path username password h schema td files h1
              sel irow fs h2 (ClientError msg)
              (h2 ++ [DownloadTableFile schema irow 0 column_name out_path]))
    as [Hrun Hh2]; try done.
  - unfold download_row.
    erewrite bind_ok by (rewrite lift_run; by rewrite Hcell).
    erewrite bind_ok by (rewrite lift_run; reflexivity).
    cbv beta iota. apply bind_raise.
    unfold syn_downloadTableFile, invoke. by rewrite Hreply.
  - rewrite Hrun, Hh2. by rewrite <- !app_assoc.
Qed.

Lemma read_download_failure_aborts_witness :
  read_synapse_table_files Faulty.no_download "syn4590865"
    ([] ++ "audio_audio.m4a" :: ["audio_countdown.m4a"]) PyNone "out" "" "" []
  = (Raise (ClientError "connection reset"),
     [] ++ [Login (credentials "" ""); Get "syn4590865";
            TableQuery (select_all "syn4590865")]
        ++ expected_downloads (Demo.schema "syn4590865") "out" Demo.table
             (rows_to_resolve PyNone Demo.table) []
        ++ column_downloads (Demo.schema "syn4590865") "out" Demo.table 2
             "audio_audio.m4a"
        ++ [DownloadTableFile (Demo.schema "syn4590865") 2 0
                              "audio_audio.m4a" "out"]).
Proof.
  apply (read_download_failure_aborts Faulty.no_download "syn4590865" []
           "audio_audio.m4a" ["audio_countdown.m4a"] PyNone "out" "" "" []
           (Demo.schema "syn4590865") Demo.table []
           [Login None; Get "syn4590865"; TableQuery "select * from syn4590865"]
           (ASeries {| s_index := df_index Demo.table;
                       s_values := [Num 5001; NaN; Num 5003] |})
           2 [Some "out/audio_audio.m4a"; None]
           [Login None; Get "syn4590865"; TableQuery "select * from syn4590865";
            DownloadTableFile (Demo.schema "syn4590865") 0 0
                              "audio_audio.m4a" "out"]
           5003 "connection reset").
  - repeat split.
  - reflexivity.
  - reflexivity.
  - vm_compute. split; [discriminate|reflexivity].
  - vm_compute. reflexivity.
  - reflexivity.
  - reflexivity.
Defined.

(** X7. When a download answers with file info that is not empty but
    has no ['path'] entry, the read fails with a [KeyError] on ['path'];
    the download itself has been made. *)
Theorem read_fileinfo_without_path syn synapse_table_id before column_name
    after download_limit out_path username password h schema td files h1 sel
    irow fs h2 x d :
  query_answers syn h username password synapse_table_id schema td →
  for_in before
         (download_column syn schema td
                          (PyInt (rows_to_resolve download_limit td)) out_path)
         []
         (h ++ [Login (credentials username password); Get synapse_table_id;
                TableQuery (select_all synapse_table_id)])
    = (Ok files, h1) →
  df_getitem td column_name = Ok sel →
  0 ≤ irow < rows_to_resolve download_limit td →
  for_in (range irow) (download_row syn schema column_name out_path sel) [] h1
    = (Ok fs, h2) →
  selection_getitem sel irow = Ok (Scalar (Num x)) →
  downloadTableFile_reply syn h2 schema irow 0 column_name out_path
    = Done (Some d) →
  d ≠ ∅ → d !! "path" = None →
  read_synapse_table_files syn synapse_table_id (before ++ column_name :: after)
                           download_limit out_path username password h
  = (Raise (KeyError (PyStr "path")),
     h2 ++ [DownloadTableFile schema irow 0 column_name out_path]).
Proof.
  intros Hq Hbefore Hsel Hirow Hrows Hcell Hreply Hne Hpath.
  eapply read_aborts_at_row; try done.
  unfold download_row.
  erewrite bind_ok by (rewrite lift_run; by rewrite Hcell).
  erewrite bind_ok by (rewrite lift_run; reflexivity).
  cbv beta iota.
  erewrite bind_ok by (apply invoke_done, Hreply).
  assert (dict_truthy (Some d) = true) as ->.
  { simpl. by rewrite bool_decide_false. }
  apply bind_raise. rewrite lift_run. simpl. unfold dict_getitem.
  by rewrite Hpath.
Qed.

Lemma read_fileinfo_without_path_witness :
  read_synapse_table_files Faulty.no_path "syn4590865"
    ([] ++ "audio_audio.m4a" :: []) PyNone "out" "" "" []
  = (Raise (KeyError (PyStr "path")),
     [Login None; Get "syn4590865"; TableQuery "select * from syn4590865"]
       ++ [DownloadTableFile (Demo.schema "syn4590865") 0 0
                             "audio_audio.m4a" "out"]).
Proof.
  apply (read_fileinfo_without_path Faulty.no_path "syn4590865" []
           "audio_audio.m4a" [] PyNone "out" "" "" []
           (Demo.schema "syn4590865") Demo.table []
           [Login None; Get "syn4590865"; TableQuery "select * from syn4590865"]
           (ASeries {| s_index := df_index Demo.table;
                       s_values := [Num 5001; NaN; Num 5003] |})
           0 [] 
           [Login None; Get "syn4590865"; TableQuery "select * from syn4590865"]
           5001 {["name" := "audio_audio.m4a"]}).
  - repeat split.
  - reflexivity.
  - reflexivity.
  - vm_compute. split; [discriminate|reflexivity].
  - reflexivity.
  - reflexivity.
  - reflexivity.
  - apply (bool_decide_unpack _). vm_compute. exact I.
  - apply lookup_singleton_ne. discriminate.
Defined.

(** ** What a copy stores *)

Lemma filter_keeps_all {A} (P : A → Prop) `{!∀ x, Decision (P x)} (l : list A) :
  (∀ x, x ∈ l → P x) → filter P l = l.
Proof.
  induction l as [|x l IH]; intros Hall; [done|].
  rewrite filter_cons_True by (apply Hall; by left).
  rewrite IH; [done|]. intros y Hy. apply Hall. by right.
Qed.

Lemma filter_keeps_none {A} (P : A → Prop) `{!∀ x, Decision (P x)} (l : list A) :
  (∀ x, x ∈ l → ¬ P x) → filter P l = [].
Proof.
  induction l as [|x l IH]; intros Hall; [done|].
  rewrite filter_cons_False by (apply Hall; by left).
  apply IH. intros y Hy. apply Hall. by right.
Qed.

(** The removal loop keeps, in order, the columns whose name is not in
    the list, and leaves the row index alone. *)
Lemma del_columns_filter remove_columns td :
  NoDup remove_columns →
  (∀ name, name ∈ remove_columns → name ∈ headers td) →
  del_columns remove_columns td
  = Ok {| df_index := df_index td;
          df_columns := filter (λ col, col.1 ∉ remove_columns) (df_columns td) |}.
Proof.
  revert td. induction remove_columns as [|c cs IH]; intros td Hnd Hall; simpl.
  - rewrite filter_keeps_all by (intros; apply not_elem_of_nil). by destruct td.
  - apply NoDup_cons in Hnd as [Hc Hnd].
    unfold df_delitem. rewrite bool_decide_true by (apply Hall; by left).
    rewrite IH; [|done|].
    + simpl. f_equal. f_equal. rewrite list_filter_filter.
      apply list_filter_iff. intros col. rewrite not_elem_of_cons. tauto.
    + intros name Hin. unfold headers. simpl.
      assert (name ∈ headers td) as Hname by (apply Hall; by right).
      apply list_elem_of_fmap in Hname as (col & -> & Hcol).
      apply list_elem_of_fmap. exists col. split; [done|].
      apply list_elem_of_filter. split; [|done].
      intros Heq. apply Hc. by rewrite <- Heq.
Qed.

(** The run of a copy whose removals all succeed. *)
Lemma copy_run_filter syn atc synapse_table_id synapse_project_id
    table_name remove_columns username password h td :
  let cred := credentials username password in
  login_reply syn h cred = Done () →
  tableQuery_reply syn (h ++ [Login cred]) (select_all synapse_table_id) = Done td →
  NoDup remove_columns →
  (∀ name, name ∈ remove_columns → name ∈ headers td) →
  (∀ t, ∃ columns, atc t = Done columns) →
  stores_answer syn →
  ∃ t columns,
    copy_synapse_table syn atc synapse_table_id synapse_project_id table_name
                       remove_columns username password h
    = (Ok (t, table_name, synapse_project_id),
       h ++ [Login cred; TableQuery (select_all synapse_table_id);
             Store (ETable (ESchema (new_Schema table_name columns
                                                synapse_project_id (Some false)))
                           t)]) ∧
    atc t = Done columns ∧
    df_columns t = filter (λ col, col.1 ∉ remove_columns) (df_columns td) ∧
    df_index t = LInt <$> range (shape0 td).
Proof.
  intros cred Hlogin Hquery Hnd Hall Hatc Hstore.
  set (td1 := {| df_index := df_index td;
                 df_columns := filter (λ col, col.1 ∉ remove_columns)
                                      (df_columns td) |}).
  destruct (Hatc (renumbered td1)) as (columns & Hcolumns).
  destruct (Hstore (h ++ [Login cred; TableQuery (select_all synapse_table_id)])
              (ETable (ESchema (new_Schema table_name columns synapse_project_id
                                           (Some false)))
                      (renumbered td1))) as (stored & Hstored).
  exists (renumbered td1), columns. split; [|by repeat split].
  rewrite (copy_run _ _ _ _ _ _ _ _ _ td) by done. fold cred.
  rewrite del_columns_filter by done. fold td1.
  unfold store_run. rewrite Hcolumns. cbv zeta. rewrite Hstored.
  by rewrite <- app_assoc.
Qed.

(** X8. A copy whose names to remove are columns of the queried table,
    none repeated, makes three calls: login, query, and one store.  The
    table it stores and returns keeps, in their order, exactly the
    columns not named; its rows are renumbered 0..N-1 with N the number
    of rows queried; the schema carries the table name, the destination
    project, the columns derived from that very table, and
    [includeRowIdAndRowVersion=False]. *)
Theorem copy_removes_named_columns syn atc synapse_table_id synapse_project_id
    table_name remove_columns username password h td :
  let cred := credentials username password in
  login_reply syn h cred = Done () →
  tableQuery_reply syn (h ++ [Login cred]) (select_all synapse_table_id) = Done td →
  NoDup remove_columns →
  (∀ name, name ∈ remove_columns → name ∈ headers td) →
  (∀ t, ∃ columns, atc t = Done columns) →
  stores_answer syn →
  ∃ t columns,
    copy_synapse_table syn atc synapse_table_id synapse_project_id table_name
                       remove_columns username password h
    = (Ok (t, table_name, synapse_project_id),
       h ++ [Login cred; TableQuery (select_all synapse_table_id);
             Store (ETable (ESchema (new_Schema table_name columns
                                                synapse_project_id (Some false)))
                           t)]) ∧
    atc t = Done columns ∧
    df_columns t = filter (λ col, col.1 ∉ remove_columns) (df_columns td) ∧
    df_index t = LInt <$> range (shape0 td).
Proof.
  intros cred Hlogin Hquery Hnd Hall Hatc Hstore.
  by apply copy_run_filter.
Qed.

Lemma copy_removes_named_columns_witness :
  ∃ t columns,
    copy_synapse_table Demo.syn Demo.as_table_columns "syn4590865" "syn4899451"
      "Copy of syn4590865" ["audio_audio.m4a"; "audio_countdown.m4a"] "" "" []
    = (Ok (t, "Copy of syn4590865", "syn4899451"),
       [] ++ [Login (credentials "" ""); TableQuery (select_all "syn4590865");
              Store (ETable (ESchema (new_Schema "Copy of syn4590865" columns
                                                 "syn4899451" (Some false)))
                            t)]) ∧
    Demo.as_table_columns t = Done columns ∧
    df_columns t
    = filter (λ col, col.1 ∉ ["audio_audio.m4a"; "audio_countdown.m4a"])
             (df_columns Demo.table) ∧
    df_index t = LInt <$> range (shape0 Demo.table).
Proof.
  apply (copy_removes_named_columns Demo.syn Demo.as_table_columns "syn4590865"
           "syn4899451" "Copy of syn4590865"
           ["audio_audio.m4a"; "audio_countdown.m4a"] "" "" [] Demo.table).
  - reflexivity.
  - reflexivity.
  - apply (bool_decide_unpack _). vm_compute. exact I.
  - intros name Hin.
    repeat (apply elem_of_cons in Hin as [->|Hin]);
      [| |by apply elem_of_nil in Hin];
      apply (bool_decide_unpack _); vm_compute; exact I.
  - intros t. eexists. reflexivity.
  - apply demo_stores_answer.
Defined.

(** X9. Removing every column of the queried table (each name once)
    does not fail in the removal: the copy stores and returns a table
    with no column that still has one row label per queried row. *)
Theorem copy_all_columns_removed syn atc synapse_table_id synapse_project_id
    table_name remove_columns username password h td :
  let cred := credentials username password in
  login_reply syn h cred = Done () →
  tableQuery_reply syn (h ++ [Login cred]) (select_all synapse_table_id) = Done td →
  NoDup remove_columns →
  (∀ name, name ∈ remove_columns ↔ name ∈ headers td) →
  (∀ t, ∃ columns, atc t = Done columns) →
  stores_answer syn →
  ∃ t h',
    copy_synapse_table syn atc synapse_table_id synapse_project_id table_name
                       remove_columns username password h
    = (Ok (t, table_name, synapse_project_id), h') ∧
    df_columns t = [] ∧ shape1 t = 0 ∧ shape0 t = shape0 td.
Proof.
  intros cred Hlogin Hquery Hnd Hall Hatc Hstore.
  destruct (copy_run_filter syn atc synapse_table_id
              synapse_project_id table_name remove_columns username password
              h td) as (t & columns & Hrun & _ & Hcols & Hidx); try done.
  { intros name. apply Hall. }
  assert (df_columns t = []) as Hnone.
  { rewrite Hcols. apply filter_keeps_none. intros col Hcol Hnot.
    apply Hnot, Hall. apply list_elem_of_fmap. by exists col. }
  exists t. eexists. split; [exact Hrun|]. split; [done|]. split.
  - unfold shape1. by rewrite Hnone.
  - unfold shape0. rewrite Hidx, length_fmap, range_length. unfold shape0. lia.
Qed.

Lemma copy_all_columns_removed_witness :
  ∃ t h',
    copy_synapse_table Demo.syn Demo.as_table_columns "syn4590865" "syn4899451"
      "Copy" ["audio_countdown.m4a"; "recordId"; "audio_audio.m4a"] "" "" []
    = (Ok (t, "Copy", "syn4899451"), h') ∧
    df_columns t = [] ∧ shape1 t = 0 ∧ shape0 t = shape0 Demo.table.
Proof.
  apply (copy_all_columns_removed Demo.syn Demo.as_table_columns "syn4590865"
           "syn4899451" "Copy"
           ["audio_countdown.m4a"; "recordId"; "audio_audio.m4a"] "" "" []
           Demo.table).
  - reflexivity.
  - reflexivity.
  - apply (bool_decide_unpack _). vm_compute. exact I.
  - intros name. split; intros Hin;
      repeat (apply elem_of_cons in Hin as [->|Hin]);
      try (by apply elem_of_nil in Hin);
      apply (bool_decide_unpack _); vm_compute; exact I.
  - intros t. eexists. reflexivity.
  - apply demo_stores_answer.
Defined.

(** ** Schema derivation and the store *)

(** X10. The columns of the schema are derived before anything is
    stored: when [as_table_columns] raises on the table to store, each of
    the three writing functions raises that error and has made no store
    call (a copy has logged in and queried, the other two have only
    logged in). *)
Theorem schema_failure_stores_nothing syn atc union_indexes synapse_table_id
    synapse_project_id table_name remove_columns table_data frames
    username password h td td1 t msg1 msg2 msg3 :
  let cred := credentials username password in
  login_reply syn h cred = Done () →
  tableQuery_reply syn (h ++ [Login cred]) (select_all synapse_table_id) = Done td →
  del_columns remove_columns td = Ok td1 →
  atc (renumbered td1) = Failed msg1 →
  atc (renumbered table_data) = Failed msg2 →
  pd_concat_axis1 union_indexes frames = Ok t →
  atc t = Failed msg3 →
  copy_synapse_table syn atc synapse_table_id synapse_project_id table_name
                     remove_columns username password h
  = (Raise (ClientError msg1),
     h ++ [Login cred; TableQuery (select_all synapse_table_id)]) ∧
  write_synapse_table syn atc table_data synapse_project_id table_name
                      username password h
  = (Raise (ClientError msg2), h ++ [Login cred]) ∧
  concatenate_tables_to_synapse_table syn atc union_indexes frames
                                      synapse_project_id table_name
                                      username password h
  = (Raise (ClientError msg3), h ++ [Login cred]).
Proof.
  intros cred Hlogin Hquery Hdel Hatc1 Hatc2 Hconcat Hatc3.
  split; [|split].
  - rewrite (copy_run _ _ _ _ _ _ _ _ _ td) by done. fold cred.
    rewrite Hdel. unfold store_run. by rewrite Hatc1.
  - rewrite write_run by done. fold cred. unfold store_run. by rewrite Hatc2.
  - rewrite concatenate_run by done. fold cred. rewrite Hconcat.
    unfold store_run. by rewrite Hatc3.
Qed.

Lemma schema_failure_stores_nothing_witness :
  copy_synapse_table Demo.syn Faulty.as_table_columns "syn4590865" "syn4899451"
                     "Copy" ["recordId"] "" "" []
  = (Raise (ClientError "unknown dtype"),
     [] ++ [Login (credentials "" ""); TableQuery (select_all "syn4590865")]) ∧
  write_synapse_table Demo.syn Faulty.as_table_columns Demo.table "syn4899451"
                      "Copy" "" "" []
  = (Raise (ClientError "unknown dtype"), [] ++ [Login (credentials "" "")]) ∧
  concatenate_tables_to_synapse_table Demo.syn Faulty.as_table_columns
    Demo.union_indexes [Demo.df1; Demo.df2] "syn4899451" "Copy" "" "" []
  = (Raise (ClientError "unknown dtype"), [] ++ [Login (credentials "" "")]).
Proof.
  eapply (schema_failure_stores_nothing Demo.syn Faulty.as_table_columns
            Demo.union_indexes "syn4590865" "syn4899451" "Copy" ["recordId"]
            Demo.table [Demo.df1; Demo.df2] "" "" [] Demo.table);
    reflexivity.
Defined.

Lemma clean_index_renumbered td : clean_index td → renumbered td = td.
Proof. unfold clean_index, renumbered. intros <-. by destruct td. Qed.

(** X11. A write logs in and makes one store: of the given table with
    its rows renumbered 0..N-1 and its columns and row count unchanged,
    under a schema with the table name, the project, the columns derived
    from the renumbered table and [includeRowIdAndRowVersion=False].  A
    table whose index already is 0..N-1 is stored as it is. *)
Theorem write_stores_renumbered syn atc table_data synapse_project_id table_name
    username password h columns stored :
  let cred := credentials username password in
  let table :=
    ETable (ESchema (new_Schema table_name columns synapse_project_id
                                (Some false)))
           (renumbered table_data) in
  login_reply syn h cred = Done () →
  atc (renumbered table_data) = Done columns →
  store_reply syn (h ++ [Login cred]) table = Done stored →
  write_synapse_table syn atc table_data synapse_project_id table_name
                      username password h
  = (Ok (), h ++ [Login cred; Store table]) ∧
  df_columns (renumbered table_data) = df_columns table_data ∧
  shape0 (renumbered table_data) = shape0 table_data ∧
  clean_index (renumbered table_data) ∧
  (clean_index table_data → renumbered table_data = table_data).
Proof.
  intros cred table Hlogin Hatc Hstore.
  split; [|split; [done|split; [apply renumbered_shape0|split]]].
  - rewrite write_run by done. fold cred. unfold store_run.
    rewrite Hatc. cbv zeta. fold table. rewrite Hstore.
    by rewrite <- app_assoc.
  - apply renumbered_clean.
  - apply clean_index_renumbered.
Qed.

Lemma write_stores_renumbered_witness :
  write_synapse_table Demo.syn Demo.as_table_columns Demo.table "syn4899451"
                      "Contents of syn4590865" "" "" []
  = (Ok (),
     [] ++ [Login (credentials "" "");
            Store (ETable (ESchema (new_Schema "Contents of syn4590865"
                                      [ {| col_name := "recordId";
                                           col_columnType := "STRING" |};
                                        {| col_name := "audio_audio.m4a";
                                           col_columnType := "STRING" |};
                                        {| col_name := "audio_countdown.m4a";
                                           col_columnType := "STRING" |} ]
                                      "syn4899451" (Some false)))
                          (renumbered Demo.table))]) ∧
  df_columns (renumbered Demo.table) = df_columns Demo.table ∧
  shape0 (renumbered Demo.table) = shape0 Demo.table ∧
  clean_index (renumbered Demo.table) ∧
  (clean_index Demo.table → renumbered Demo.table = Demo.table).
Proof.
  eapply (write_stores_renumbered Demo.syn Demo.as_table_columns Demo.table
            "syn4899451" "Contents of syn4590865" "" "" []); reflexivity.
Defined.

(** ** Uploads that fail *)

Lemma upload_file_history syn in_file files_handles h :
  (upload_file syn in_file files_handles h).2 = h ++ [ChunkedUploadFile in_file].
Proof.
  unfold upload_file, syn_chunkedUploadFile. rewrite bind_run. unfold invoke.
  destruct (chunkedUploadFile_reply syn h in_file) as [file_handle|msg]; [|done].
  rewrite bind_run, lift_run. by destruct (dict_getitem file_handle "id").
Qed.

Lemma upload_loop_ok_history syn in_files files_handles h handles h' :
  for_in in_files (upload_file syn) files_handles h = (Ok handles, h') →
  h' = h ++ (ChunkedUploadFile <$> in_files) ∧
  length handles = (length files_handles + length in_files)%nat.
Proof.
  revert files_handles h.
  induction in_files as [|in_file in_files IH]; intros files_handles h; simpl.
  - rewrite ret_run. intros [= <- <-]. rewrite app_nil_r. split; [done|lia].
  - rewrite bind_run.
    pose proof (upload_file_history syn in_file files_handles h) as Hstep.
    destruct (upload_file syn in_file files_handles h) as [[acc|e] h1] eqn:Hup;
      [|done].
    simpl in Hstep. subst h1. intros H. apply IH in H as [-> Hlen].
    split; [by rewrite <- app_assoc|].
    assert (length acc = S (length files_handles)) as Hacc.
    { unfold upload_file in Hup.
      apply bind_ok_inv in Hup as (fh & h1 & _ & Hup).
      apply bind_ok_inv in Hup as (id & h2 & _ & Hup).
      rewrite ret_run in Hup. simplify_eq. rewrite length_app. simpl. lia. }
    lia.
Qed.

(** An error at one upload ends the call with that error: the uploads
    made so far stay made, and nothing is stored. *)
Lemma files_to_aborts_at_upload syn before path after synapse_project_id
    table_name column_name username password h handles h1 e :
  let cred := credentials username password in
  login_reply syn h cred = Done () →
  for_in before (upload_file syn) [] (h ++ [Login cred]) = (Ok handles, h1) →
  (upload_file syn path handles h1).1 = Raise e →
  files_to_synapse_table syn (before ++ path :: after) synapse_project_id
                         table_name column_name username password h
  = (Raise e, h ++ [Login cred] ++ (ChunkedUploadFile <$> before ++ [path])).
Proof.
  intros cred Hlogin Hbefore Hup.
  unfold files_to_synapse_table. rewrite log_in_run. fold cred.
  unfold syn_login.
  erewrite bind_ok by (apply invoke_done, Hlogin).
  apply bind_raise. rewrite for_in_app.
  erewrite bind_ok by exact Hbefore.
  simpl for_in. apply bind_raise.
  pose proof (upload_file_history syn path handles h1) as Hstep.
  destruct (upload_file syn path handles h1) as [r h2]. simpl in *. subst.
  apply upload_loop_ok_history in Hbefore as [-> _].
  by rewrite fmap_app, <- !app_assoc.
Qed.

(** X12. When the upload of one file fails, [files_to_synapse_table]
    raises the client's error: the files before it have been uploaded,
    the files after it are not, and no schema and no row is stored, so
    no table is created. *)
Theorem upload_failure_stores_nothing syn before path after synapse_project_id
    table_name column_name username password h handles h1 msg :
  let cred := credentials username password in
  login_reply syn h cred = Done () →
  for_in before (upload_file syn) [] (h ++ [Login cred]) = (Ok handles, h1) →
  chunkedUploadFile_reply syn h1 path = Failed msg →
  files_to_synapse_table syn (before ++ path :: after) synapse_project_id
                         table_name column_name username password h
  = (Raise (ClientError msg),
     h ++ [Login cred] ++ (ChunkedUploadFile <$> before ++ [path])).
Proof.
  intros cred Hlogin Hbefore Hreply.
  apply files_to_aborts_at_upload with handles h1; try done.
  unfold upload_file, syn_chunkedUploadFile. rewrite bind_run. unfold invoke.
  by rewrite Hreply.
Qed.

Lemma upload_failure_stores_nothing_witness :
  files_to_synapse_table Faulty.no_upload
    (["test1.wav"] ++ "test2.wav" :: ["test4.wav"]) "syn4899451" "T" "fileID"
    "" "" []
  = (Raise (ClientError "file not found"),
     [] ++ [Login (credentials "" "")]
        ++ (ChunkedUploadFile <$> ["test1.wav"] ++ ["test2.wav"])).
Proof.
  apply (upload_failure_stores_nothing Faulty.no_upload ["test1.wav"]
           "test2.wav" ["test4.wav"] "syn4899451" "T" "fileID" "" "" []
           [["fh:test1.wav"]] [Login None; ChunkedUploadFile "test1.wav"]).
  - reflexivity.
  - vm_compute. reflexivity.
  - reflexivity.
Defined.

(** X13. When an upload answers with a file handle that has no ['id']
    entry, the call fails with a [KeyError] on ['id'] right after that
    upload, and nothing is stored. *)
Theorem handle_without_id_stores_nothing syn before path after
    synapse_project_id table_name column_name username password h handles h1
    file_handle :
  let cred := credentials username password in
  login_reply syn h cred = Done () →
  for_in before (upload_file syn) [] (h ++ [Login cred]) = (Ok handles, h1) →
  chunkedUploadFile_reply syn h1 path = Done file_handle →
  file_handle !! "id" = None →
  files_to_synapse_table syn (before ++ path :: after) synapse_project_id
                         table_name column_name username password h
  = (Raise (KeyError (PyStr "id")),
     h ++ [Login cred] ++ (ChunkedUploadFile <$> before ++ [path])).
Proof.
  intros cred Hlogin Hbefore Hreply Hid.
  apply files_to_aborts_at_upload with handles h1; try done.
  unfold upload_file, syn_chunkedUploadFile. rewrite bind_run. unfold invoke.
  rewrite Hreply. rewrite bind_run, lift_run. unfold dict_getitem.
  by rewrite Hid.
Qed.

Lemma handle_without_id_stores_nothing_witness :
  files_to_synapse_table Faulty.no_upload
    (["test1.wav"] ++ "test3.wav" :: []) "syn4899451" "T" "fileID" "" "" []
  = (Raise (KeyError (PyStr "id")),
     [] ++ [Login (credentials "" "")]
        ++ (ChunkedUploadFile <$> ["test1.wav"] ++ ["test3.wav"])).
Proof.
  apply (handle_without_id_stores_nothing Faulty.no_upload ["test1.wav"]
           "test3.wav" [] "syn4899451" "T" "fileID" "" "" []
           [["fh:test1.wav"]] [Login None; ChunkedUploadFile "test1.wav"]
           {["concreteType" := "S3FileHandle"]}).
  - reflexivity.
  - vm_compute. reflexivity.
  - reflexivity.
  - apply lookup_singleton_ne. discriminate.
Defined.

(** X14. With no file to upload, [files_to_synapse_table] still creates
    the table: it logs in, stores the one-column schema and stores a set
    of no rows; it makes no upload. *)
Theorem files_to_synapse_table_no_files syn synapse_project_id table_name
    column_name username password h schema stored :
  let cred := credentials username password in
  let new_column_header :=
    {| col_name := column_name; col_columnType := "FILEHANDLEID" |} in
  let new_table :=
    ESchema (new_Schema table_name [new_column_header] synapse_project_id None) in
  login_reply syn h cred = Done () →
  store_reply syn (h ++ [Login cred]) new_table = Done schema →
  store_reply syn (h ++ [Login cred; Store new_table])
              (ERowSet [new_column_header] schema []) = Done stored →
  files_to_synapse_table syn [] synapse_project_id table_name column_name
                         username password h
  = (Ok (),
     h ++ [Login cred; Store new_table;
           Store (ERowSet [new_column_header] schema [])]).
Proof.
  intros cred new_column_header new_table Hlogin Hschema Hrows.
  unfold files_to_synapse_table. rewrite log_in_run. fold cred.
  unfold syn_login, syn_store.
  erewrite bind_ok by (apply invoke_done, Hlogin).
  simpl for_in. erewrite bind_ok by apply ret_run.
  cbv zeta. fold new_column_header. fold new_table.
  erewrite bind_ok by (apply invoke_done, Hschema).
  erewrite bind_ok.
  2: { apply invoke_done. rewrite <- app_assoc. exact Hrows. }
  rewrite ret_run. by rewrite <- !app_assoc.
Qed.

Lemma files_to_synapse_table_no_files_witness :
  ∃ schema,
    files_to_synapse_table Demo.syn [] "syn4899451" "T" "fileID" "" "" []
    = (Ok (),
       [] ++ [Login (credentials "" "");
              Store (ESchema (new_Schema "T"
                                [ {| col_name := "fileID";
                                     col_columnType := "FILEHANDLEID" |} ]
                                "syn4899451" None));
              Store (ERowSet [ {| col_name := "fileID";
                                  col_columnType := "FILEHANDLEID" |} ]
                             schema [])]).
Proof.
  eexists.
  eapply (files_to_synapse_table_no_files Demo.syn "syn4899451" "T" "fileID"
            "" "" []); reflexivity.
Defined.

(** X15. The schema is stored before the rows, and nothing is undone:
    when the store of the rows fails, the call raises the client's
    error although every file has been uploaded and the new table's
    schema has been stored. *)
Theorem rows_failure_leaves_table syn in_files synapse_project_id table_name
    column_name username password h schema msg :
  let cred := credentials username password in
  let new_column_header :=
    {| col_name := column_name; col_columnType := "FILEHANDLEID" |} in
  let new_table :=
    ESchema (new_Schema table_name [new_column_header] synapse_project_id None) in
  login_reply syn h cred = Done () →
  uploads_answer syn →
  store_reply syn (h ++ [Login cred] ++ (ChunkedUploadFile <$> in_files))
              new_table = Done schema →
  (∀ before rows,
     store_reply syn before (ERowSet [new_column_header] schema rows)
     = Failed msg) →
  ∃ rows,
    files_to_synapse_table syn in_files synapse_project_id table_name
                           column_name username password h
    = (Raise (ClientError msg),
       h ++ [Login cred] ++ (ChunkedUploadFile <$> in_files) ++
         [Store new_table; Store (ERowSet [new_column_header] schema rows)]) ∧
    length rows = length in_files.
Proof.
  intros cred new_column_header new_table Hlogin Hup Hschema Hrows.
  destruct (upload_loop_run syn in_files [] (h ++ [Login cred]) Hup)
    as (ids & Hloop & Hlen & _).
  exists ((λ id, [id]) <$> ids). split; [|by rewrite length_fmap].
  unfold files_to_synapse_table. rewrite log_in_run. fold cred.
  unfold syn_login, syn_store.
  erewrite bind_ok by (apply invoke_done, Hlogin).
  erewrite bind_ok by exact Hloop.
  cbv zeta. fold new_column_header. fold new_table.
  erewrite bind_ok.
  2: { apply invoke_done. rewrite <- app_assoc. exact Hschema. }
  rewrite Row_fmap, app_nil_l.
  erewrite bind_raise.
  2: { unfold invoke. rewrite Hrows. reflexivity. }
  by rewrite <- !app_assoc.
Qed.

Lemma rows_failure_leaves_table_witness :
  ∃ rows,
    files_to_synapse_table Faulty.no_rows ["test1.wav"; "test2.wav"]
                           "syn4899451" "T" "fileID" "" "" []
    = (Raise (ClientError "400 Bad Request"),
       [] ++ [Login (credentials "" "")]
          ++ (ChunkedUploadFile <$> ["test1.wav"; "test2.wav"])
          ++ [Store (ESchema (new_Schema "T"
                                [ {| col_name := "fileID";
                                     col_columnType := "FILEHANDLEID" |} ]
                                "syn4899451" None));
              Store (ERowSet [ {| col_name := "fileID";
                                  col_columnType := "FILEHANDLEID" |} ]
                             (ESchema {| sch_name := "T";
                                         sch_columns :=
                                           [ {| col_name := "fileID";
                                                col_columnType := "FILEHANDLEID" |} ];
                                         sch_parent := "syn4899451";
                                         sch_includeRowIdAndRowVersion := None;
                                         sch_id := Some "syn2" |})
                             rows)]) ∧
    length rows = length ["test1.wav"; "test2.wav"].
Proof.
  apply (rows_failure_leaves_table Faulty.no_rows ["test1.wav"; "test2.wav"]
           "syn4899451" "T" "fileID" "" "" []).
  - reflexivity.
  - apply demo_uploads_answer.
  - reflexivity.
  - reflexivity.
Defined.

(** ** Concatenating any number of frames *)

Lemma shape1_join frames :
  Z.of_nat (length (mjoin (df_columns <$> frames)))
  = foldr Z.add 0 (shape1 <$> frames).
Proof.
  induction frames as [|df frames IH]; [done|].
  change (mjoin (df_columns <$> df :: frames))
    with (df_columns df ++ mjoin (df_columns <$> frames)).
  rewrite length_app, Nat2Z.inj_add, IH. reflexivity.
Qed.

(** X16. Any number of frames that share the row index of the first are
    stored as one table: the columns of all frames side by side, in the
    order of the list (as many as the frames have together), on that
    shared index, which is not renumbered.  The schema is built without
    [includeRowIdAndRowVersion]; the calls are the login and one store. *)
Theorem concatenate_shared_index syn atc union_indexes first rest
    synapse_project_id table_name username password h :
  let cred := credentials username password in
  login_reply syn h cred = Done () →
  Forall (λ df, df_index df = df_index first) rest →
  (∀ t, ∃ columns, atc t = Done columns) →
  stores_answer syn →
  ∃ t columns,
    concatenate_tables_to_synapse_table syn atc union_indexes (first :: rest)
      synapse_project_id table_name username password h
    = (Ok (t, synapse_project_id),
       h ++ [Login cred;
             Store (ETable (ESchema (new_Schema table_name columns
                                                synapse_project_id None)) t)]) ∧
    atc t = Done columns ∧
    df_index t = df_index first ∧
    df_columns t = mjoin (df_columns <$> first :: rest) ∧
    shape1 t = foldr Z.add 0 (shape1 <$> first :: rest) ∧
    (Forall well_formed (first :: rest) → well_formed t).
Proof.
  intros cred Hlogin Hshared Hatc Hstore.
  set (t := {| df_index := df_index first;
               df_columns := mjoin (df_columns <$> first :: rest) |}).
  destruct (Hatc t) as (columns & Hcolumns).
  destruct (Hstore (h ++ [Login cred])
              (ETable (ESchema (new_Schema table_name columns synapse_project_id
                                           None)) t)) as (stored & Hstored).
  exists t, columns. split; [|split; [done|split; [done|split; [done|split]]]].
  - rewrite concatenate_run by done. fold cred.
    rewrite pd_concat_shared by done. fold t.
    unfold store_run. rewrite Hcolumns. cbv zeta. rewrite Hstored.
    by rewrite <- app_assoc.
  - unfold shape1 at 1. apply shape1_join.
  - intros Hwf. by apply well_formed_concat.
Qed.

Lemma concatenate_shared_index_witness :
  ∃ t columns,
    concatenate_tables_to_synapse_table Demo.syn Demo.as_table_columns
      Demo.union_indexes (Demo.df1 :: [Demo.df2; Demo.df1])
      "syn4899451" "Test to join tables" "" "" []
    = (Ok (t, "syn4899451"),
       [] ++ [Login (credentials "" "");
              Store (ETable (ESchema (new_Schema "Test to join tables" columns
                                                 "syn4899451" None)) t)]) ∧
    Demo.as_table_columns t = Done columns ∧
    df_index t = df_index Demo.df1 ∧
    df_columns t = mjoin (df_columns <$> Demo.df1 :: [Demo.df2; Demo.df1]) ∧
    shape1 t = foldr Z.add 0 (shape1 <$> Demo.df1 :: [Demo.df2; Demo.df1]) ∧
    (Forall well_formed (Demo.df1 :: [Demo.df2; Demo.df1]) → well_formed t).
Proof.
  apply (concatenate_shared_index Demo.syn Demo.as_table_columns
           Demo.union_indexes Demo.df1 [Demo.df2; Demo.df1]
           "syn4899451" "Test to join tables" "" "" []).
  - reflexivity.
  - repeat constructor.
  - intros t. eexists. reflexivity.
  - apply demo_stores_answer.
Defined.

(** X17. With an empty list of frames the concatenation raises a
    [ValueError]: the call has logged in and stores nothing. *)
Theorem concatenate_no_frames syn atc union_indexes synapse_project_id
    table_name username password h :
  login_reply syn h (credentials username password) = Done () →
  concatenate_tables_to_synapse_table syn atc union_indexes []
                                      synapse_project_id table_name
                                      username password h
  = (Raise ValueError, h ++ [Login (credentials username password)]).
Proof. intros Hlogin. by rewrite concatenate_run. Qed.

Lemma concatenate_no_frames_witness :
  concatenate_tables_to_synapse_table Demo.syn Demo.as_table_columns
    Demo.union_indexes [] "syn4899451" "Test to join tables" "" "" []
  = (Raise ValueError, [] ++ [Login (credentials "" "")]).
Proof.
  apply (concatenate_no_frames Demo.syn Demo.as_table_columns Demo.union_indexes
           "syn4899451" "Test to join tables" "" "" []).
  reflexivity.
Defined.
